(** * DuckLens retail pipeline: cleaning stage and transformation core

    A shallow embedding of [ducklens_pipeline/01_cleaning.py] and
    [ducklens_pipeline/02_transform.py].

    A pandas DataFrame is a list of row records, in row order.  A float64
    column cell is a [num]: an exact rational, or [NaN] for a missing or
    undefined value.  Rounding of float64 arithmetic is not modelled; the
    results of a division by zero (numpy's [inf] and [nan]) are both [NaN].
    Group-by, left merge, [nunique], [mean] and [fillna] are modelled as list
    functions with the behaviour pandas documents for them. *)

From Stdlib Require Import List String Ascii Bool Arith ZArith QArith Qabs Lqa Lia.
From Stdlib Require Import Permutation.
Import ListNotations.

Set Implicit Arguments.

(* ================================================================== *)
(** ** Numeric cells *)
(* ================================================================== *)

Inductive num : Type :=
| Num (q : Q)
| NaN.

Definition isna (x : num) : bool :=
  match x with NaN => true | Num _ => false end.

(** [x] holds a number (it is not missing). *)
Definition defined (x : num) : Prop :=
  match x with Num _ => True | NaN => False end.

Definition Qlt_bool (a b : Q) : bool := negb (Qle_bool b a).

(** Comparisons of a cell with a constant; every comparison with NaN is
    false, as in numpy. *)
Definition ngt (x : num) (c : Q) : bool :=
  match x with Num a => Qlt_bool c a | NaN => false end.
Definition nge (x : num) (c : Q) : bool :=
  match x with Num a => Qle_bool c a | NaN => false end.
Definition nlt (x : num) (c : Q) : bool :=
  match x with Num a => Qlt_bool a c | NaN => false end.
Definition nle (x : num) (c : Q) : bool :=
  match x with Num a => Qle_bool a c | NaN => false end.

Definition nsub (x y : num) : num :=
  match x, y with Num a, Num b => Num (a - b) | _, _ => NaN end.
Definition nmul (x y : num) : num :=
  match x, y with Num a, Num b => Num (a * b) | _, _ => NaN end.
Definition ndiv (x y : num) : num :=
  match x, y with
  | Num a, Num b => if Qeq_bool b 0 then NaN else Num (a / b)
  | _, _ => NaN
  end.
Definition nabs (x : num) : num :=
  match x with Num a => Num (Qabs a) | NaN => NaN end.

(** Propositional readings of the comparisons, used in the statements. *)
Definition Ngt (x : num) (c : Q) : Prop :=
  match x with Num a => (c < a)%Q | NaN => False end.
Definition Nge (x : num) (c : Q) : Prop :=
  match x with Num a => (c <= a)%Q | NaN => False end.
Definition Nlt (x : num) (c : Q) : Prop :=
  match x with Num a => (a < c)%Q | NaN => False end.

(** Two cells hold the same value: the same rational, or both missing. *)
Definition num_eq (x y : num) : Prop :=
  match x, y with
  | Num a, Num b => (a == b)%Q
  | NaN, NaN => True
  | _, _ => False
  end.

(** [Series.fillna(d)] on a float column. *)
Definition fillna (x d : num) : num :=
  match x with NaN => d | Num _ => x end.

(** A float cell produced by a left merge: NaN where no key matched. *)
Definition merged_num (x : option num) : num :=
  match x with Some v => v | None => NaN end.

(** An integer count produced by a left merge followed by [fillna(0)]. *)
Definition merged_count (x : option nat) : nat :=
  match x with Some n => n | None => 0%nat end.

Definition Qnat (n : nat) : Q := inject_Z (Z.of_nat n).

(** An integer cell read as a float. *)
Definition of_nat (n : nat) : num := Num (Qnat n).

(* ================================================================== *)
(** ** Frame operations *)
(* ================================================================== *)

Fixpoint dropna {T : Type} (l : list (option T)) : list T :=
  match l with
  | [] => []
  | Some v :: t => v :: dropna t
  | None :: t => dropna t
  end.

Fixpoint dropnan (l : list num) : list Q :=
  match l with
  | [] => []
  | Num q :: t => q :: dropnan t
  | NaN :: t => dropnan t
  end.

Fixpoint Qsum (l : list Q) : Q :=
  match l with
  | [] => 0
  | q :: t => q + Qsum t
  end.

Definition Qlen (l : list Q) : Q := Qnat (List.length l).

(** Arithmetic mean of a non-empty list of rationals. *)
Definition Qmean (l : list Q) : Q := Qsum l / Qlen l.

(** [Series.mean()]: missing cells are skipped; NaN when nothing is left. *)
Definition mean (l : list num) : num :=
  match dropnan l with
  | [] => NaN
  | vs => Num (Qmean vs)
  end.

Section Frames.
Variables (A K V : Type).
Variable K_dec : forall x y : K, {x = y} + {x <> y}.

Definition key_eqb (x y : K) : bool := if K_dec x y then true else false.

(** [Series.nunique()] over the present values of a column. *)
Definition nunique (l : list K) : nat := List.length (nodup K_dec l).

(** The rows of [df] whose key is [k]. *)
Definition group (key : A -> K) (k : K) (df : list A) : list A :=
  filter (fun r => key_eqb (key r) k) df.

(** [df.groupby(key)[col].agg()]: one entry per key that occurs in [df],
    holding the aggregate of that key's rows.  pandas sorts the entries by
    key; a left merge does not observe their order. *)
Definition groupby (key : A -> K) (agg : list A -> V) (df : list A)
  : list (K * V) :=
  map (fun k => (k, agg (group key k df))) (nodup K_dec (map key df)).

(** [df.merge(right, on=key, how='left')]: every left row, in order, once
    for each right entry with its key, or once with a missing value when
    there is none. *)
Definition merge_left (key : A -> K) (df : list A) (right : list (K * V))
  : list (A * option V) :=
  flat_map
    (fun r =>
       match filter (fun kv => key_eqb (fst kv) (key r)) right with
       | [] => [(r, None)]
       | ms => map (fun kv => (r, Some (snd kv))) ms
       end)
    df.

(** [df.drop_duplicates(subset=key, keep='first')]. *)
Fixpoint drop_duplicates_from (key : A -> K) (seen : list K) (df : list A)
  : list A :=
  match df with
  | [] => []
  | r :: t =>
      if in_dec K_dec (key r) seen
      then drop_duplicates_from key seen t
      else r :: drop_duplicates_from key (key r :: seen) t
  end.

Definition drop_duplicates (key : A -> K) (df : list A) : list A :=
  drop_duplicates_from key [] df.
(** What a left merge finds for key [k] in the table of a group-by. *)
Definition lookup_group (skey : A -> K) (agg : list A -> V)
           (src : list A) (k : K) : option V :=
  if in_dec K_dec k (map skey src)
  then Some (agg (group skey k src))
  else None.
End Frames.

(* ================================================================== *)
(** ** Cleaned transaction rows *)
(* ================================================================== *)

Inductive quality : Type := high | medium | low.

Definition quality_eqb (a b : quality) : bool :=
  match a, b with
  | high, high | medium, medium | low, low => true
  | _, _ => false
  end.

(** A sale date is an instant, or missing (NaT). *)
Definition date := option Z.

Record Row : Type := mkRow {
  store_name : string;
  item_code : string;
  item_barcode : string;
  description : string;
  category : string;
  department : string;
  sub_department : string;
  section : string;
  supplier : string;
  date_of_sale : date;
  quantity : num;
  total_sales : num;
  rrp : num;
  unit_price : num;
  data_quality_flag : quality
}.

(* ================================================================== *)
(** ** Stage 1: cleaning (01_cleaning.py) *)
(* ================================================================== *)

(** A row of [staging.stg_sales_raw]: text cells may be NULL, numeric cells
    may be missing. *)
Record RawRow : Type := mkRawRow {
  raw_store_name : option string;
  raw_item_code : option string;
  raw_item_barcode : option string;
  raw_description : option string;
  raw_category : option string;
  raw_department : option string;
  raw_sub_department : option string;
  raw_section : option string;
  raw_supplier : option string;
  raw_date_of_sale : date;
  raw_quantity : num;
  raw_total_sales : num;
  raw_rrp : num
}.

(** [astype(str)] on an object cell. *)
Definition astype_str (x : option string) : string :=
  match x with Some s => s | None => "None"%string end.

Definition dedup_key : Type := string * string * date.

Definition dedup_dec (x y : dedup_key) : {x = y} + {x <> y}.
Proof. repeat decide equality. Defined.

Section Cleaning.
(** Python's [str.strip], [str.title] and [str.upper]. *)
Variables str_strip str_title str_upper : string -> string.

Definition standardize (x : option string) : string :=
  str_title (str_strip (astype_str x)).

(** [np.where(df.quantity > 0, df.total_sales / df.quantity, 0)] *)
Definition unit_price_of (q ts : num) : num :=
  if ngt q 0 then ndiv ts q else Num 0.

(** Section 3 of [clean_data]: the assignments to [data_quality_flag], in
    order. *)
Definition quality_flag_of (store item : string) (d : date)
           (q ts p up : num) : quality :=
  let flag := high in
  let negative_qty := nlt q 0 in
  let negative_sales := nlt ts 0 in
  let flag := if negative_qty || negative_sales then low else flag in
  let missing_rrp := isna p || nle p 0 in
  let flag := if missing_rrp && quality_eqb flag high then medium else flag in
  let rrp_deviation := ndiv (nabs (nsub up p)) p in
  let high_deviation := ngt rrp_deviation (1 # 2) && ngt p 0 in
  let flag := if high_deviation && quality_eqb flag high then medium else flag in
  let missing_store := String.eqb store "" in
  let missing_item := String.eqb item "" in
  let missing_date := match d with None => true | Some _ => false end in
  let critical_missing := missing_store || missing_item || missing_date in
  if critical_missing then low else flag.

(** Sections 1 to 3 of [clean_data] act on each row separately. *)
Definition clean_row (r : RawRow) : Row :=
  let up := unit_price_of (raw_quantity r) (raw_total_sales r) in
  let store := standardize (raw_store_name r) in
  let item := str_upper (str_strip (astype_str (raw_item_code r))) in
  {| store_name := store;
     item_code := item;
     item_barcode := str_strip (astype_str (raw_item_barcode r));
     description := standardize (raw_description r);
     category := standardize (raw_category r);
     department := standardize (raw_department r);
     sub_department := standardize (raw_sub_department r);
     section := standardize (raw_section r);
     supplier := standardize (raw_supplier r);
     date_of_sale := raw_date_of_sale r;
     quantity := raw_quantity r;
     total_sales := raw_total_sales r;
     rrp := raw_rrp r;
     unit_price := up;
     data_quality_flag :=
       quality_flag_of store item (raw_date_of_sale r) (raw_quantity r)
         (raw_total_sales r) (raw_rrp r) up |}.

(** [duplicate_cols = ['store_name', 'item_code', 'date_of_sale']] *)
Definition duplicate_key (r : Row) : dedup_key :=
  (store_name r, item_code r, date_of_sale r).

(** Section 5 ([pd.to_numeric], [pd.to_datetime] with [errors='coerce'])
    leaves float and timestamp columns as they are. *)
Definition clean_data (df : list RawRow) : list Row :=
  drop_duplicates dedup_dec duplicate_key (map clean_row df).
End Cleaning.

(* ================================================================== *)
(** ** Stage 2: the transformation core (02_transform.py) *)
(* ================================================================== *)

(** Business rules. *)
Definition PROMO_MIN_DISCOUNT_PCT : Q := 1 # 10.
Definition PROMO_MIN_DAYS : nat := 2.

(** Each pass returns the frame it was given with columns added: the row
    record of a pass embeds the row record of the pass before it. *)
Record PromoRow : Type := mkPromoRow {
  promo_base :> Row;
  discount_pct : num;
  promo_days_count : nat;
  is_promo : bool
}.

Record UpliftRow : Type := mkUpliftRow {
  uplift_base :> PromoRow;
  baseline_units : num;
  promo_avg_units : num;
  promo_uplift_pct : num
}.

Record PriceRow : Type := mkPriceRow {
  price_base :> UpliftRow;
  is_bidco : bool;
  group_avg_price : num;
  price_index_vs_comp : num
}.

Record EnrichedRow : Type := mkEnrichedRow {
  coverage_base :> PriceRow;
  promo_store_count : nat;
  promo_coverage_pct : num
}.

(** *** detect_promos *)

(** [np.where(df.rrp > 0, (df.rrp - df.unit_price) / df.rrp, 0)] *)
Definition discount_of (r : Row) : num :=
  if ngt (rrp r) 0
  then ndiv (nsub (rrp r) (unit_price r)) (rrp r)
  else Num 0.

(** [df.discount_pct >= PROMO_MIN_DISCOUNT_PCT] *)
Definition is_promo_candidate (r : Row) : bool :=
  nge (discount_of r) PROMO_MIN_DISCOUNT_PCT.

(** [nunique()] of the sale dates of a group; NaT is not counted. *)
Definition nunique_dates (g : list Row) : nat :=
  nunique Z.eq_dec (dropna (map date_of_sale g)).

Definition detect_promos (df : list Row) : list PromoRow :=
  let promo_days :=
    groupby string_dec item_code nunique_dates (filter is_promo_candidate df) in
  map (fun rm : Row * option nat =>
         let r := fst rm in
         let days := merged_count (snd rm) in
         {| promo_base := r;
            discount_pct := discount_of r;
            promo_days_count := days;
            is_promo := is_promo_candidate r && (PROMO_MIN_DAYS <=? days)%nat |})
      (merge_left string_dec item_code df promo_days).

(** *** calculate_uplift *)

Definition mean_quantity (g : list PromoRow) : num :=
  mean (map (fun r : PromoRow => quantity r) g).

(** [np.where((baseline > 0) & is_promo, (promo_avg - baseline) / baseline * 100, 0)] *)
Definition uplift_of (baseline promo_avg : num) (promo : bool) : num :=
  if ngt baseline 0 && promo
  then nmul (ndiv (nsub promo_avg baseline) baseline) (Num 100)
  else Num 0.

Definition calculate_uplift (df : list PromoRow) : list UpliftRow :=
  let baseline :=
    groupby string_dec (fun r : PromoRow => item_code r) mean_quantity
      (filter (fun r => negb (is_promo r)) df) in
  let promo_avg :=
    groupby string_dec (fun r : PromoRow => item_code r) mean_quantity
      (filter is_promo df) in
  let df1 := merge_left string_dec (fun r : PromoRow => item_code r) df baseline in
  let df2 :=
    merge_left string_dec
      (fun rb : PromoRow * option num => item_code (fst rb)) df1 promo_avg in
  map (fun x : PromoRow * option num * option num =>
         let r := fst (fst x) in
         let b := fillna (merged_num (snd (fst x))) (quantity r) in
         let pa := fillna (merged_num (snd x)) (Num 0) in
         {| uplift_base := r;
            baseline_units := b;
            promo_avg_units := pa;
            promo_uplift_pct := uplift_of b pa (is_promo r) |})
      df2.

(** *** calculate_price_index *)

Definition lower_ascii (c : ascii) : ascii :=
  let n := nat_of_ascii c in
  if ((65 <=? n) && (n <=? 90))%nat then ascii_of_nat (n + 32) else c.

Fixpoint lower (s : string) : string :=
  match s with
  | EmptyString => EmptyString
  | String c t => String (lower_ascii c) (lower t)
  end.

Fixpoint substring_of (pat s : string) : bool :=
  prefix pat s ||
  match s with
  | EmptyString => false
  | String _ t => substring_of pat t
  end.

(** [str.contains(pat, case=False)] for a literal pattern, on ASCII letters. *)
Definition contains_nocase (pat s : string) : bool :=
  substring_of (lower pat) (lower s).

Definition cohort_key : Type := string * string * string.

Definition cohort_dec (x y : cohort_key) : {x = y} + {x <> y}.
Proof. repeat decide equality. Defined.

(** [groupby_cols = ['sub_department', 'section', 'store_name']] *)
Definition cohort (r : Row) : cohort_key :=
  (sub_department r, section r, store_name r).

Definition mean_unit_price (g : list UpliftRow) : num :=
  mean (map (fun r : UpliftRow => unit_price r) g).

(** [np.where(group_avg > 0, unit_price / group_avg, 1.0)] *)
Definition price_index_of (price group_avg : num) : num :=
  if ngt group_avg 0 then ndiv price group_avg else Num 1.

Definition calculate_price_index (df : list UpliftRow) : list PriceRow :=
  let avg_prices :=
    groupby cohort_dec (fun r : UpliftRow => cohort r) mean_unit_price df in
  map (fun rm : UpliftRow * option num =>
         let r := fst rm in
         let avg := merged_num (snd rm) in
         {| price_base := r;
            is_bidco := contains_nocase "Bidco" (supplier r);
            group_avg_price := avg;
            price_index_vs_comp := price_index_of (unit_price r) avg |})
      (merge_left cohort_dec (fun r : UpliftRow => cohort r) df avg_prices).

(** *** calculate_promo_coverage *)

Definition nunique_stores (g : list PriceRow) : nat :=
  nunique string_dec (map (fun r : PriceRow => store_name r) g).

(** [(promo_store_count / total_stores) * 100] *)
Definition coverage_of (count total : nat) : num :=
  nmul (ndiv (of_nat count) (of_nat total)) (Num 100).

Definition calculate_promo_coverage (df : list PriceRow) : list EnrichedRow :=
  let total_stores := nunique_stores df in
  let promo_coverage :=
    groupby string_dec (fun r : PriceRow => item_code r) nunique_stores
      (filter (fun r : PriceRow => is_promo r) df) in
  map (fun rm : PriceRow * option nat =>
         let r := fst rm in
         let stores := merged_count (snd rm) in
         {| coverage_base := r;
            promo_store_count := stores;
            promo_coverage_pct := coverage_of stores total_stores |})
      (merge_left string_dec (fun r : PriceRow => item_code r) df promo_coverage).

(** *** main *)

Definition main (df_cleaned : list Row) : list EnrichedRow :=
  let df := detect_promos df_cleaned in
  let df := calculate_uplift df in
  let df := calculate_price_index df in
  let df := calculate_promo_coverage df in
  df.

(* ================================================================== *)
(** ** Stage 3: what the loader submits (03_loading.py) *)
(* ================================================================== *)

(** The loader is modelled up to the database: a function returns the
    tuples it submits for insertion, or [None] when it raises. *)

(** Python's [int(x)] on a float: truncation toward zero. *)
Definition Qtrunc (q : Q) : Z := Z.quot (Qnum q) (Zpos (Qden q)).

(** [float(x) if pd.notna(x) else None] *)
Definition notna_or_null (x : num) : option Q :=
  match x with Num q => Some q | NaN => None end.

Definition date_dec (x y : date) : {x = y} + {x <> y}.
Proof. repeat decide equality. Defined.

(** A loop body that may raise, over the rows of a frame, in order. *)
Fixpoint traverse {A B : Type} (f : A -> option B) (l : list A)
  : option (list B) :=
  match l with
  | [] => Some []
  | x :: t =>
      match f x with
      | None => None
      | Some y =>
          match traverse f t with
          | None => None
          | Some ys => Some (y :: ys)
          end
      end
  end.

Record DateRecord : Type := mkDateRecord {
  date_id : Z;
  full_date : Z;
  year : Z;
  month : Z;
  day : Z;
  weekday_name : string;
  is_weekend : bool
}.

Record FactRecord : Type := mkFactRecord {
  fact_store_id : Z;
  fact_item_id : Z;
  fact_supplier_id : Z;
  fact_date_id : Z;
  fact_quantity : Z;
  fact_total_sales : num;
  fact_rrp : num;
  fact_unit_price : num;
  fact_discount_pct : num;
  fact_is_promo : bool;
  fact_baseline_units : option Q;
  fact_promo_uplift_pct : option Q;
  fact_price_index_vs_comp : option Q;
  fact_data_quality_flag : quality
}.

(** The foreign keys of a row: store, item, supplier, date. *)
Definition fks : Type := Z * Z * Z * Z.

Section Loading.
(** [Timestamp.strftime('%Y%m%d')], [int] of its result, and the calendar
    accessors of a timestamp. *)
Variable strftime_ymd : Z -> string.
Variable int_of_str : string -> Z.
Variables date_part year_of month_of day_of weekday_of : Z -> Z.
Variable weekday_name_of : Z -> string.

Definition date_record (t : Z) : DateRecord :=
  {| date_id := int_of_str (strftime_ymd t);
     full_date := date_part t;
     year := year_of t;
     month := month_of t;
     day := day_of t;
     weekday_name := weekday_name_of t;
     is_weekend := (5 <=? weekday_of t)%Z |}.

(** [load_dimension_dates]: one tuple per distinct value of the date column;
    [strftime] raises on NaT. *)
Definition load_dimension_dates (df : list EnrichedRow)
  : option (list DateRecord) :=
  let dates :=
    drop_duplicates date_dec (fun d : date => d)
                    (map (fun e : EnrichedRow => date_of_sale e) df) in
  traverse (fun d : date =>
              match d with
              | Some t => Some (date_record t)
              | None => None
              end)
           dates.

(** The dictionaries read back from the dimension tables; [Series.map]
    leaves a missing value where the key is absent. *)
Variables store_map supplier_map date_map item_map : string -> option Z.

Definition resolve_fks (e : EnrichedRow) : option (EnrichedRow * fks) :=
  let date_id_str := option_map strftime_ymd (date_of_sale e) in
  let store_fk := store_map (store_name e) in
  let supplier_fk := supplier_map (supplier e) in
  let date_fk :=
    match date_id_str with Some s => date_map s | None => None end in
  let item_fk := item_map (item_code e) in
  match store_fk, supplier_fk, date_fk, item_fk with
  | Some s, Some p, Some d, Some i => Some (e, (s, i, p, d))
  | _, _, _, _ => None
  end.

(** One tuple of [fact_records]; [int(row['quantity'])] raises on a missing
    quantity. *)
Definition fact_record (x : EnrichedRow * fks) : option FactRecord :=
  let e := fst x in
  match snd x, quantity e with
  | (s, i, p, d), Num q =>
      Some {| fact_store_id := s;
              fact_item_id := i;
              fact_supplier_id := p;
              fact_date_id := d;
              fact_quantity := Qtrunc q;
              fact_total_sales := total_sales e;
              fact_rrp := rrp e;
              fact_unit_price := unit_price e;
              fact_discount_pct := fillna (discount_pct e) (Num 0);
              fact_is_promo := is_promo e;
              fact_baseline_units := notna_or_null (baseline_units e);
              fact_promo_uplift_pct := notna_or_null (promo_uplift_pct e);
              fact_price_index_vs_comp :=
                notna_or_null (price_index_vs_comp e);
              fact_data_quality_flag := data_quality_flag e |}
  | _, NaN => None
  end.

(** [load_fact_sales]: rows without all four keys are dropped
    ([dropna(subset=...)]), the others are turned into tuples. *)
Definition load_fact_sales (df : list EnrichedRow) : option (list FactRecord) :=
  let df_valid := dropna (map resolve_fks df) in
  traverse fact_record df_valid.
End Loading.

(* ================================================================== *)
(** ** Each pass, row by row *)
(* ================================================================== *)

(** What each pass puts in one row of its frame; the passes are proved
    equal to these maps further down. *)

(** The candidate rows of one item. *)
Definition candidates_of (df : list Row) (item : string) : list Row :=
  group string_dec item_code item (filter is_promo_candidate df).

Definition promo_row (df : list Row) (r : Row) : PromoRow :=
  let days := nunique_dates (candidates_of df (item_code r)) in
  {| promo_base := r;
     discount_pct := discount_of r;
     promo_days_count := days;
     is_promo := is_promo_candidate r && (PROMO_MIN_DAYS <=? days)%nat |}.

Definition item_group (promo : bool) (df : list PromoRow) (item : string)
  : list PromoRow :=
  group string_dec (fun r : PromoRow => item_code r) item
        (filter (fun r => Bool.eqb (is_promo r) promo) df).

Definition uplift_row (df : list PromoRow) (r : PromoRow) : UpliftRow :=
  let b := fillna (mean_quantity (item_group false df (item_code r))) (quantity r) in
  let pa := fillna (mean_quantity (item_group true df (item_code r))) (Num 0) in
  {| uplift_base := r;
     baseline_units := b;
     promo_avg_units := pa;
     promo_uplift_pct := uplift_of b pa (is_promo r) |}.

Definition cohort_group (df : list UpliftRow) (k : cohort_key) : list UpliftRow :=
  group cohort_dec (fun r : UpliftRow => cohort r) k df.

Definition price_row (df : list UpliftRow) (r : UpliftRow) : PriceRow :=
  let avg := mean_unit_price (cohort_group df (cohort r)) in
  {| price_base := r;
     is_bidco := contains_nocase "Bidco" (supplier r);
     group_avg_price := avg;
     price_index_vs_comp := price_index_of (unit_price r) avg |}.

Definition promo_stores_of (df : list PriceRow) (item : string) : list PriceRow :=
  group string_dec (fun r : PriceRow => item_code r) item
        (filter (fun r : PriceRow => is_promo r) df).

Definition coverage_row (df : list PriceRow) (r : PriceRow) : EnrichedRow :=
  let stores := nunique_stores (promo_stores_of df (item_code r)) in
  {| coverage_base := r;
     promo_store_count := stores;
     promo_coverage_pct := coverage_of stores (nunique_stores df) |}.

(* ================================================================== *)
(** ** Cohorts of the enriched frame *)
(* ================================================================== *)

(** The rows of item [item] whose promo flag is [promo]. *)
Definition item_rows (promo : bool) (ds : list EnrichedRow) (item : string)
  : list EnrichedRow :=
  filter (fun e : EnrichedRow =>
            String.eqb (item_code e) item && Bool.eqb (is_promo e) promo)
         ds.

(** The rows that share sub-department, section and store with [e],
    whatever their supplier. *)
Definition cohort_rows (ds : list EnrichedRow) (e : EnrichedRow)
  : list EnrichedRow :=
  filter (fun e' : EnrichedRow =>
            String.eqb (sub_department e') (sub_department e)
            && String.eqb (section e') (section e)
            && String.eqb (store_name e') (store_name e))
         ds.

(** The quantities that are present (not missing) on the rows of item
    [item] whose promo flag is [promo], in row order. *)
Definition present_quantities (promo : bool) (ds : list EnrichedRow)
           (item : string) : list Q :=
  dropnan (map (fun e : EnrichedRow => quantity e) (item_rows promo ds item)).

(** The unit prices that are present on the rows of the cohort of [e]. *)
Definition present_prices (ds : list EnrichedRow) (e : EnrichedRow) : list Q :=
  dropnan (map (fun e' : EnrichedRow => unit_price e') (cohort_rows ds e)).

(* ================================================================== *)
(** ** Sample frames *)
(* ================================================================== *)

Definition raw_sale (store item : string) (day : Z) (qty total list_price : Q)
  : RawRow :=
  {| raw_store_name := Some store;
     raw_item_code := Some item;
     raw_item_barcode := Some "6161100"%string;
     raw_description := Some "Cooking Oil 1L"%string;
     raw_category := Some "Foods"%string;
     raw_department := Some "Grocery"%string;
     raw_sub_department := Some "Oils"%string;
     raw_section := Some "Cooking"%string;
     raw_supplier := Some "Bidco Africa Ltd"%string;
     raw_date_of_sale := Some day;
     raw_quantity := Num qty;
     raw_total_sales := Num total;
     raw_rrp := Num list_price |}.

(** The cleaning stage on text that is already stripped and cased. *)
Definition clean_plain : list RawRow -> list Row :=
  clean_data (fun s => s) (fun s => s) (fun s => s).

Definition enrich_alone (r : RawRow) : EnrichedRow :=
  coverage_row [] (price_row [] (uplift_row [] (promo_row []
    (clean_row (fun s => s) (fun s => s) (fun s => s) r)))).

(** SKU1 sells at 85 against an RRP of 100 on two dates in store A and at
    RRP in store B; SKU2 sells at 85 against 100 on one date only. *)
Definition sample_raw : list RawRow :=
  [ raw_sale "A" "SKU1" 1 3 255 100;
    raw_sale "A" "SKU1" 2 5 425 100;
    raw_sale "B" "SKU1" 2 4 400 100;
    raw_sale "A" "SKU2" 1 3 255 100 ].

Definition sample_df : list Row := clean_plain sample_raw.

(** The first row of the enriched sample frame. *)
Definition sample_enriched : EnrichedRow :=
  nth 0 (main sample_df) (enrich_alone (raw_sale "A" "SKU1" 1 3 255 100)).

(** Two sales of one cohort, one of them refunded: its total is negative. *)
Definition refund_raw : list RawRow :=
  [ raw_sale "A" "SKU5" 1 1 (-10) 10; raw_sale "A" "SKU6" 1 1 2 2 ].

Definition refund_df : list Row := clean_plain refund_raw.

Definition refund_enriched : EnrichedRow :=
  nth 0 (main refund_df) (enrich_alone (raw_sale "A" "SKU5" 1 1 (-10) 10)).

(** Sales of an item whose RRP is recorded as 0. *)
Definition unpriced_raw : list RawRow :=
  [ raw_sale "A" "SKU9" 1 3 255 0; raw_sale "A" "SKU9" 2 3 255 0 ].

Definition unpriced_df : list Row := clean_plain unpriced_raw.

Definition unpriced_enriched : EnrichedRow :=
  nth 0 (main unpriced_df) (enrich_alone (raw_sale "A" "SKU9" 1 3 255 0)).

(** A customer return: a negative quantity. *)
Definition returns_raw : list RawRow :=
  [ raw_sale "A" "SKU7" 3 (-2) (-170) 100; raw_sale "A" "SKU7" 4 5 500 100 ].

Definition returns_enriched : EnrichedRow :=
  nth 0 (main (clean_plain returns_raw))
      (enrich_alone (raw_sale "A" "SKU7" 3 (-2) (-170) 100)).

(** The sample frame with its first sale entered twice and one sale
    without a date. *)
Definition undated (r : RawRow) : RawRow :=
  {| raw_store_name := raw_store_name r;
     raw_item_code := raw_item_code r;
     raw_item_barcode := raw_item_barcode r;
     raw_description := raw_description r;
     raw_category := raw_category r;
     raw_department := raw_department r;
     raw_sub_department := raw_sub_department r;
     raw_section := raw_section r;
     raw_supplier := raw_supplier r;
     raw_date_of_sale := None;
     raw_quantity := raw_quantity r;
     raw_total_sales := raw_total_sales r;
     raw_rrp := raw_rrp r |}.

Definition messy_raw : list RawRow :=
  sample_raw
  ++ [ raw_sale "A" "SKU1" 1 3 255 100;
       undated (raw_sale "B" "SKU2" 5 2 170 100) ].

(** A calendar and dimension tables for the sample frame: instant 1 is
    2024-01-01, every other instant 2024-01-02; item SKU2 is not in the item
    dimension. *)
Definition sample_ymd (t : Z) : string :=
  if (t =? 1)%Z then "20240101"%string else "20240102"%string.

Definition sample_int (s : string) : Z :=
  if String.eqb s "20240101" then 20240101%Z else 20240102%Z.

Definition sample_weekday (t : Z) : string :=
  if (t =? 1)%Z then "Monday"%string else "Tuesday"%string.

Definition sample_store_map (s : string) : option Z :=
  if String.eqb s "A" then Some 1%Z
  else if String.eqb s "B" then Some 2%Z else None.

Definition sample_supplier_map (s : string) : option Z :=
  if String.eqb s "Bidco Africa Ltd" then Some 7%Z else None.

Definition sample_date_map (s : string) : option Z :=
  if String.eqb s "20240101" then Some 20240101%Z
  else if String.eqb s "20240102" then Some 20240102%Z else None.

Definition sample_item_map (s : string) : option Z :=
  if String.eqb s "SKU1" then Some 11%Z else None.

(** A raw row with its quantity cell, or its total cell, left blank. *)
Definition unquantified (r : RawRow) : RawRow :=
  {| raw_store_name := raw_store_name r;
     raw_item_code := raw_item_code r;
     raw_item_barcode := raw_item_barcode r;
     raw_description := raw_description r;
     raw_category := raw_category r;
     raw_department := raw_department r;
     raw_sub_department := raw_sub_department r;
     raw_section := raw_section r;
     raw_supplier := raw_supplier r;
     raw_date_of_sale := raw_date_of_sale r;
     raw_quantity := NaN;
     raw_total_sales := raw_total_sales r;
     raw_rrp := raw_rrp r |}.


(** SKU8 sells 2 and 4 units at 85 against an RRP of 100 on two dates in
    store A (promo rows); its only other row, in store B, has no quantity
    and an RRP of 0 (a non-promo row). *)
Definition blank_quantity_raw : list RawRow :=
  [ raw_sale "A" "SKU8" 1 2 170 100;
    raw_sale "A" "SKU8" 2 4 340 100;
    unquantified (raw_sale "B" "SKU8" 3 1 100 0) ].

Definition blank_quantity_df : list Row := clean_plain blank_quantity_raw.

Definition blank_quantity_enriched : EnrichedRow :=
  nth 0 (main blank_quantity_df)
      (enrich_alone (raw_sale "A" "SKU8" 1 2 170 100)).




(* ================================================================== *)
(** ** Facts about numeric cells *)
(* ================================================================== *)

Lemma Qlt_bool_iff (a b : Q) : Qlt_bool a b = true <-> (a < b)%Q.
Proof.
  unfold Qlt_bool. rewrite negb_true_iff. split; intro H.
  - apply Qnot_le_lt. intro L. apply Qle_bool_iff in L. congruence.
  - destruct (Qle_bool b a) eqn:E; [|reflexivity].
    apply Qle_bool_iff in E. exfalso. apply (Qlt_not_le _ _ H E).
Qed.

Lemma Qlt_bool_pos (p : Q) : (0 < p)%Q -> Qlt_bool 0 p = true.
Proof. apply Qlt_bool_iff. Qed.

Lemma ngt_Ngt x c : ngt x c = true <-> Ngt x c.
Proof. destruct x; simpl; [apply Qlt_bool_iff | split; [discriminate | tauto]]. Qed.

Lemma nge_Nge x c : nge x c = true <-> Nge x c.
Proof. destruct x; simpl; [apply Qle_bool_iff | split; [discriminate | tauto]]. Qed.

(* ================================================================== *)
(** ** Facts about the frame operations *)
(* ================================================================== *)

Section FrameFacts.
Variables (K V : Type).
Variable K_dec : forall x y : K, {x = y} + {x <> y}.

Lemma key_eqb_true (x y : K) : key_eqb K_dec x y = true <-> x = y.
Proof. unfold key_eqb. destruct (K_dec x y); split; congruence. Qed.

Lemma key_eqb_refl (x : K) : key_eqb K_dec x x = true.
Proof. now apply key_eqb_true. Qed.

Lemma group_In (S : Type) (skey : S -> K) (k : K) (src : list S) (s : S) :
  In s (group K_dec skey k src) <-> In s src /\ skey s = k.
Proof. unfold group. rewrite filter_In, key_eqb_true. tauto. Qed.

Lemma group_absent (S : Type) (skey : S -> K) (k : K) (src : list S) :
  ~ In k (map skey src) -> group K_dec skey k src = [].
Proof.
  intro H. destruct (group K_dec skey k src) as [|s g] eqn:E; [reflexivity|].
  exfalso. apply H. assert (I : In s (group K_dec skey k src)) by (rewrite E; now left).
  apply group_In in I. destruct I as [I <-]. now apply in_map.
Qed.

(** A key selects at most one entry of a table whose keys are distinct. *)
Lemma filter_keyed (f : K -> V) (k : K) (ks : list K) :
  NoDup ks ->
  filter (fun kv : K * V => key_eqb K_dec (fst kv) k)
         (map (fun k' => (k', f k')) ks)
  = if in_dec K_dec k ks then [(k, f k)] else [].
Proof.
  induction 1 as [|x ks Hx Hnd IH]; simpl; [reflexivity|].
  rewrite IH. unfold key_eqb at 1.
  destruct (K_dec x k) as [->|Hne].
  - destruct (in_dec K_dec k ks); [contradiction|]. reflexivity.
  - destruct (in_dec K_dec k ks); reflexivity.
Qed.

(** The keys of a group-by are distinct, so a left merge with it keeps
    every left row exactly once, in order. *)
Lemma merge_left_groupby (A S : Type) (key : A -> K) (skey : S -> K)
      (agg : list S -> V) (df : list A) (src : list S) :
  merge_left K_dec key df (groupby K_dec skey agg src)
  = map (fun r => (r, lookup_group K_dec skey agg src (key r))) df.
Proof.
  unfold merge_left.
  match goal with |- flat_map ?f _ = _ => set (F := f) end.
  induction df as [|r df IH]; [reflexivity|].
  change (F r ++ flat_map F df
          = (r, lookup_group K_dec skey agg src (key r))
              :: map (fun r => (r, lookup_group K_dec skey agg src (key r))) df).
  rewrite IH.
  replace (F r) with [(r, lookup_group K_dec skey agg src (key r))]; [reflexivity|].
  subst F. cbv beta.
  unfold groupby. rewrite filter_keyed by apply NoDup_nodup.
  unfold lookup_group.
  destruct (in_dec K_dec (key r) (nodup K_dec (map skey src))) as [i|n];
    destruct (in_dec K_dec (key r) (map skey src)) as [i'|n']; simpl;
    try reflexivity.
  - exfalso. apply n'. now apply nodup_In in i.
  - exfalso. apply n. now apply nodup_In.
Qed.

Lemma drop_duplicates_from_In (A : Type) (key : A -> K) (df : list A) :
  forall seen r, In r (drop_duplicates_from K_dec key seen df) -> In r df.
Proof.
  induction df as [|x df IH]; simpl; intros seen r H; [assumption|].
  destruct (in_dec K_dec (key x) seen).
  - right. eapply IH, H.
  - destruct H as [->|H]; [now left | right; eapply IH, H].
Qed.

(** The distinct values counted by [nunique]. *)
Lemma nunique_spec (l : list K) :
  exists u, NoDup u /\ (forall x, In x u <-> In x l)
            /\ nunique K_dec l = List.length u.
Proof.
  exists (nodup K_dec l). split; [apply NoDup_nodup|].
  split; [intro x; apply nodup_In | reflexivity].
Qed.

Lemma nunique_le (l l' : list K) :
  incl l l' -> (nunique K_dec l <= nunique K_dec l')%nat.
Proof.
  intro H. unfold nunique. apply NoDup_incl_length; [apply NoDup_nodup|].
  intros x Hx. apply nodup_In. apply H. now apply nodup_In in Hx.
Qed.

Lemma nunique_pos (l : list K) (x : K) :
  In x l -> (1 <= nunique K_dec l)%nat.
Proof.
  intro H. unfold nunique.
  destruct (nodup K_dec l) as [|y u] eqn:E; simpl; [|lia].
  exfalso. apply (nodup_In K_dec) in H. rewrite E in H. exact H.
Qed.
End FrameFacts.

Lemma dropna_In (T : Type) (l : list (option T)) (x : T) :
  In x (dropna l) <-> In (Some x) l.
Proof.
  induction l as [|[y|] l IH]; simpl.
  - tauto.
  - rewrite IH. split; (intros [H|H]; [left; congruence | now right]).
  - rewrite IH. split; [now right | intros [H|H]; [discriminate | assumption]].
Qed.

Lemma merged_count_lookup (K S : Type) (K_dec : forall x y : K, {x = y} + {x <> y})
      (skey : S -> K) (agg : list S -> nat) (src : list S) (k : K) :
  agg [] = 0%nat ->
  merged_count (lookup_group K_dec skey agg src k) = agg (group K_dec skey k src).
Proof.
  intro H0. unfold lookup_group.
  destruct (in_dec K_dec k (map skey src)) as [i|n]; simpl; [reflexivity|].
  now rewrite group_absent.
Qed.

Lemma merged_num_lookup (K S : Type) (K_dec : forall x y : K, {x = y} + {x <> y})
      (skey : S -> K) (agg : list S -> num) (src : list S) (k : K) :
  agg [] = NaN ->
  merged_num (lookup_group K_dec skey agg src k) = agg (group K_dec skey k src).
Proof.
  intro H0. unfold lookup_group.
  destruct (in_dec K_dec k (map skey src)) as [i|n]; simpl; [reflexivity|].
  now rewrite group_absent.
Qed.

(* ================================================================== *)
(** ** The passes compute their rows *)
(* ================================================================== *)

Lemma detect_promos_rows (df : list Row) :
  detect_promos df = map (promo_row df) df.
Proof.
  unfold detect_promos. rewrite merge_left_groupby, map_map.
  apply map_ext. intro r. cbn [fst snd].
  rewrite merged_count_lookup by reflexivity. reflexivity.
Qed.

Lemma calculate_uplift_rows (df : list PromoRow) :
  calculate_uplift df = map (uplift_row df) df.
Proof.
  unfold calculate_uplift. rewrite !merge_left_groupby, !map_map.
  apply map_ext. intro r. cbn [fst snd].
  rewrite !merged_num_lookup by reflexivity.
  unfold uplift_row, item_group.
  replace (filter (fun r0 : PromoRow => Bool.eqb (is_promo r0) false) df)
    with (filter (fun r0 : PromoRow => negb (is_promo r0)) df)
    by (apply filter_ext; intro x; now destruct (is_promo x)).
  replace (filter (fun r0 : PromoRow => Bool.eqb (is_promo r0) true) df)
    with (filter is_promo df)
    by (apply filter_ext; intro x; now destruct (is_promo x)).
  reflexivity.
Qed.

Lemma calculate_price_index_rows (df : list UpliftRow) :
  calculate_price_index df = map (price_row df) df.
Proof.
  unfold calculate_price_index. rewrite merge_left_groupby, map_map.
  apply map_ext. intro r. cbn [fst snd].
  rewrite merged_num_lookup by reflexivity. reflexivity.
Qed.

Lemma calculate_promo_coverage_rows (df : list PriceRow) :
  calculate_promo_coverage df = map (coverage_row df) df.
Proof.
  unfold calculate_promo_coverage. rewrite merge_left_groupby, map_map.
  apply map_ext. intro r. cbn [fst snd].
  rewrite merged_count_lookup by reflexivity. reflexivity.
Qed.

(** *** No pass drops, repeats or reorders rows *)

Lemma detect_promos_base (df : list Row) :
  map promo_base (detect_promos df) = df.
Proof.
  rewrite detect_promos_rows, map_map. cbn [promo_row promo_base]. apply map_id.
Qed.

Lemma calculate_uplift_base (df : list PromoRow) :
  map uplift_base (calculate_uplift df) = df.
Proof.
  rewrite calculate_uplift_rows, map_map. cbn [uplift_row uplift_base]. apply map_id.
Qed.

Lemma calculate_price_index_base (df : list UpliftRow) :
  map price_base (calculate_price_index df) = df.
Proof.
  rewrite calculate_price_index_rows, map_map. cbn [price_row price_base]. apply map_id.
Qed.

Lemma calculate_promo_coverage_base (df : list PriceRow) :
  map coverage_base (calculate_promo_coverage df) = df.
Proof.
  rewrite calculate_promo_coverage_rows, map_map.
  cbn [coverage_row coverage_base]. apply map_id.
Qed.

(** The frames of the earlier passes, read back from the enriched frame. *)
Lemma main_price (df : list Row) :
  map coverage_base (main df)
  = calculate_price_index (calculate_uplift (detect_promos df)).
Proof. unfold main. apply calculate_promo_coverage_base. Qed.

Lemma main_uplift (df : list Row) :
  map (fun e : EnrichedRow => (e : UpliftRow)) (main df)
  = calculate_uplift (detect_promos df).
Proof.
  rewrite <- (map_map coverage_base price_base), main_price.
  apply calculate_price_index_base.
Qed.

Lemma main_promo (df : list Row) :
  map (fun e : EnrichedRow => (e : PromoRow)) (main df) = detect_promos df.
Proof.
  rewrite <- (map_map (fun e : EnrichedRow => (e : UpliftRow)) uplift_base), main_uplift.
  apply calculate_uplift_base.
Qed.

Lemma main_rows (df : list Row) :
  map (fun e : EnrichedRow => (e : Row)) (main df) = df.
Proof.
  rewrite <- (map_map (fun e : EnrichedRow => (e : PromoRow)) promo_base), main_promo.
  apply detect_promos_base.
Qed.

(** *** The rows of the enriched frame *)

Lemma main_In (df : list Row) (e : EnrichedRow) :
  In e (main df) ->
  In (e : Row) df
  /\ (e : PromoRow) = promo_row df e
  /\ (e : UpliftRow) = uplift_row (detect_promos df) e
  /\ (e : PriceRow) = price_row (calculate_uplift (detect_promos df)) e
  /\ e = coverage_row
           (calculate_price_index (calculate_uplift (detect_promos df))) e.
Proof.
  unfold main. intro H.
  rewrite calculate_promo_coverage_rows in H.
  apply in_map_iff in H. destruct H as (x3 & E3 & H).
  rewrite calculate_price_index_rows in H.
  apply in_map_iff in H. destruct H as (x2 & E2 & H).
  rewrite calculate_uplift_rows in H.
  apply in_map_iff in H. destruct H as (x1 & E1 & H).
  rewrite detect_promos_rows in H.
  apply in_map_iff in H. destruct H as (r & E0 & H).
  subst e x3 x2 x1. cbn. repeat split; assumption.
Qed.

Lemma main_row_iff (df : list Row) (r : Row) :
  In r df <-> exists e : EnrichedRow, In e (main df) /\ (e : Row) = r.
Proof.
  rewrite <- (main_rows df) at 1. rewrite in_map_iff.
  split; intros (e & A & B); exists e; tauto.
Qed.

Lemma main_discount_pct (df : list Row) (e : EnrichedRow) :
  In e (main df) -> discount_pct e = discount_of e.
Proof. intro H. apply main_In in H. destruct H as (_ & -> & _). reflexivity. Qed.

Lemma main_promo_days_count (df : list Row) (e : EnrichedRow) :
  In e (main df) ->
  promo_days_count e = nunique_dates (candidates_of df (item_code e)).
Proof. intro H. apply main_In in H. destruct H as (_ & -> & _). reflexivity. Qed.

Lemma main_is_promo (df : list Row) (e : EnrichedRow) :
  In e (main df) ->
  is_promo e
  = is_promo_candidate e && (PROMO_MIN_DAYS <=? promo_days_count e)%nat.
Proof. intro H. apply main_In in H. destruct H as (_ & -> & _). reflexivity. Qed.

Lemma ndiv_pos (a b : Q) : (0 < b)%Q -> ndiv (Num a) (Num b) = Num (a / b).
Proof.
  intro H. unfold ndiv. destruct (Qeq_bool b 0) eqn:E; [|reflexivity].
  apply Qeq_bool_eq in E. rewrite E in H. exfalso. apply (Qlt_irrefl 0 H).
Qed.

(* ================================================================== *)
(** ** Promo detection *)
(* ================================================================== *)

(** C1: for every row of the enriched dataset, [is_promo] is true if and
    only if the row's own [discount_pct] is at least the promo threshold
    0.10 and the row's item has [promo_days_count] at least the minimum run
    length 2. *)
Theorem is_promo_iff (df : list Row) (e : EnrichedRow) :
  In e (main df) ->
  is_promo e = true
  <-> Nge (discount_pct e) (1 # 10) /\ (2 <= promo_days_count e)%nat.
Proof.
  intro H.
  rewrite (main_is_promo _ _ H), andb_true_iff, Nat.leb_le.
  unfold is_promo_candidate. rewrite nge_Nge, <- (main_discount_pct _ _ H).
  reflexivity.
Qed.

Lemma is_promo_iff_witness :
  In sample_enriched (main sample_df)
  /\ (is_promo sample_enriched = true
      <-> Nge (discount_pct sample_enriched) (1 # 10)
          /\ (2 <= promo_days_count sample_enriched)%nat).
Proof.
  assert (I : In sample_enriched (main sample_df))
    by (vm_compute; left; reflexivity).
  split; [exact I|].
  exact (is_promo_iff sample_df sample_enriched I).
Defined.

(** C7: for every row, [discount_pct] equals (RRP - unit_price) / RRP when
    RRP > 0 and 0 otherwise; a row whose RRP is 0 has [discount_pct] 0, is
    not a promo candidate and is never flagged as promo. *)
Theorem discount_pct_formula (df : list Row) (e : EnrichedRow) :
  In e (main df) ->
  (forall p, rrp e = Num p -> (0 < p)%Q ->
     discount_pct e
     = match unit_price e with
       | Num u => Num ((p - u) / p)
       | NaN => NaN
       end)
  /\ (~ Ngt (rrp e) 0 -> discount_pct e = Num 0)
  /\ (forall p, rrp e = Num p -> (p == 0)%Q ->
        discount_pct e = Num 0
        /\ is_promo_candidate e = false
        /\ ~ Nge (discount_pct e) (1 # 10)
        /\ is_promo e = false).
Proof.
  intro H.
  assert (Z0 : ~ Ngt (rrp e) 0 -> discount_pct e = Num 0).
  { intro N. rewrite (main_discount_pct _ _ H). unfold discount_of.
    destruct (ngt (rrp e) 0) eqn:G; [|reflexivity].
    apply ngt_Ngt in G. contradiction. }
  split; [|split; [exact Z0|]].
  - intros p Hp Pos. rewrite (main_discount_pct _ _ H). unfold discount_of.
    rewrite Hp. cbn [ngt].
    rewrite Qlt_bool_pos by assumption.
    destruct (unit_price e) as [u|]; cbn [nsub]; [|reflexivity].
    now apply ndiv_pos.
  - intros p Hp Zp.
    assert (D : discount_pct e = Num 0).
    { apply Z0. rewrite Hp. cbn. rewrite Zp. apply Qlt_irrefl. }
    assert (C : is_promo_candidate e = false).
    { unfold is_promo_candidate. rewrite <- (main_discount_pct _ _ H), D.
      reflexivity. }
    repeat split; try assumption.
    + rewrite D. cbn. intro L. apply Qle_bool_iff in L. discriminate L.
    + rewrite (main_is_promo _ _ H), C. reflexivity.
Qed.

Lemma discount_pct_formula_witness :
  In unpriced_enriched (main unpriced_df)
  /\ discount_pct unpriced_enriched = Num 0
  /\ is_promo unpriced_enriched = false.
Proof.
  assert (I : In unpriced_enriched (main unpriced_df))
    by (vm_compute; left; reflexivity).
  split; [exact I|].
  destruct (discount_pct_formula unpriced_df unpriced_enriched I)
    as (_ & _ & Z0).
  destruct (Z0 0 eq_refl (Qeq_refl 0)) as (D & _ & _ & P).
  split; [exact D | exact P].
Defined.

(* ================================================================== *)
(** ** Frame preservation *)
(* ================================================================== *)

(** C9: each of the four enrichment passes, and hence the composed
    pipeline, returns exactly the rows it was given, in order, each extended
    with the new columns: no row is dropped or repeated, and [quantity],
    [total_sales], [rrp] and [data_quality_flag] are unchanged. *)
Theorem passes_preserve_rows :
  (forall df, map promo_base (detect_promos df) = df)
  /\ (forall df, map uplift_base (calculate_uplift df) = df)
  /\ (forall df, map price_base (calculate_price_index df) = df)
  /\ (forall df, map coverage_base (calculate_promo_coverage df) = df)
  /\ (forall df,
        map (fun e : EnrichedRow => (e : Row)) (main df) = df
        /\ List.length (main df) = List.length df
        /\ map (fun e : EnrichedRow => quantity e) (main df) = map quantity df
        /\ map (fun e : EnrichedRow => total_sales e) (main df)
           = map total_sales df
        /\ map (fun e : EnrichedRow => rrp e) (main df) = map rrp df
        /\ map (fun e : EnrichedRow => data_quality_flag e) (main df)
           = map data_quality_flag df).
Proof.
  split; [exact detect_promos_base|].
  split; [exact calculate_uplift_base|].
  split; [exact calculate_price_index_base|].
  split; [exact calculate_promo_coverage_base|].
  intro df. pose proof (main_rows df) as R.
  split; [exact R|].
  split; [rewrite <- R at 2; now rewrite length_map|].
  repeat split; rewrite <- R at 2; now rewrite map_map.
Qed.

(* ================================================================== *)
(** ** Price index *)
(* ================================================================== *)

Lemma main_group_avg_price (df : list Row) (e : EnrichedRow) :
  In e (main df) ->
  group_avg_price e
  = mean_unit_price
      (cohort_group (calculate_uplift (detect_promos df)) (cohort e)).
Proof. intro H. apply main_In in H. destruct H as (_ & _ & _ & -> & _). reflexivity. Qed.

Lemma main_price_index (df : list Row) (e : EnrichedRow) :
  In e (main df) ->
  price_index_vs_comp e = price_index_of (unit_price e) (group_avg_price e).
Proof. intro H. apply main_In in H. destruct H as (_ & _ & _ & -> & _). reflexivity. Qed.

(** C6: for every row whose [group_avg_price] is strictly positive,
    [price_index_vs_comp] times [group_avg_price] equals [unit_price]. *)
Theorem price_index_round_trip (df : list Row) (e : EnrichedRow) (g : Q) :
  In e (main df) ->
  group_avg_price e = Num g ->
  (0 < g)%Q ->
  num_eq (nmul (price_index_vs_comp e) (group_avg_price e)) (unit_price e).
Proof.
  intros H G Pos. rewrite (main_price_index _ _ H), G.
  unfold price_index_of. cbn [ngt].
  rewrite Qlt_bool_pos by assumption.
  destruct (unit_price e) as [u|]; [|exact I].
  rewrite ndiv_pos by assumption. cbn.
  field. intro Z. rewrite Z in Pos. apply (Qlt_irrefl 0 Pos).
Qed.

Lemma price_index_round_trip_witness :
  In sample_enriched (main sample_df)
  /\ group_avg_price sample_enriched = Num (11475 # 135)
  /\ (0 < 11475 # 135)%Q
  /\ num_eq (nmul (price_index_vs_comp sample_enriched)
                  (group_avg_price sample_enriched))
            (unit_price sample_enriched).
Proof.
  assert (I : In sample_enriched (main sample_df))
    by (vm_compute; left; reflexivity).
  assert (G : group_avg_price sample_enriched = Num (11475 # 135))
    by (vm_compute; reflexivity).
  assert (P : (0 < 11475 # 135)%Q) by reflexivity.
  split; [exact I|]. split; [exact G|]. split; [exact P|].
  exact (price_index_round_trip sample_df sample_enriched I G P).
Defined.

(* ================================================================== *)
(** ** Distinct-day and distinct-store counts *)
(* ================================================================== *)

Lemma candidates_of_In (df : list Row) (k : string) (r : Row) :
  In r (candidates_of df k)
  <-> In r df /\ item_code r = k /\ is_promo_candidate r = true.
Proof.
  unfold candidates_of. rewrite group_In, filter_In. tauto.
Qed.

Lemma candidate_Nge (df : list Row) (e : EnrichedRow) :
  In e (main df) ->
  is_promo_candidate e = true <-> Nge (discount_pct e) (1 # 10).
Proof.
  intro H. unfold is_promo_candidate.
  rewrite nge_Nge, <- (main_discount_pct _ _ H). reflexivity.
Qed.

(** The dates counted for the item of a row: the distinct dates of the
    item's candidate rows, whatever their store. *)
Lemma counted_days (df : list Row) (e : EnrichedRow) :
  In e (main df) ->
  exists days : list Z,
    NoDup days
    /\ (forall d, In d days <->
          exists e' : EnrichedRow,
            In e' (main df) /\ item_code e' = item_code e
            /\ Nge (discount_pct e') (1 # 10) /\ date_of_sale e' = Some d)
    /\ promo_days_count e = List.length days.
Proof.
  intro H. rewrite (main_promo_days_count _ _ H). unfold nunique_dates.
  destruct (nunique_spec Z.eq_dec
              (dropna (map date_of_sale (candidates_of df (item_code e)))))
    as (days & ND & Hin & Hlen).
  exists days. split; [exact ND|]. split; [|exact Hlen].
  intro d. rewrite Hin, dropna_In, in_map_iff. split.
  - intros (r & Hd & Hr). apply candidates_of_In in Hr.
    destruct Hr as (Hr & Hk & Hc).
    apply main_row_iff in Hr. destruct Hr as (e' & He' & <-).
    exists e'. repeat split; try assumption.
    now apply (candidate_Nge _ _ He').
  - intros (e' & He' & Hk & Hc & Hd).
    exists (e' : Row). split; [exact Hd|].
    apply candidates_of_In. split; [|split; [exact Hk|]].
    + apply main_row_iff. now exists e'.
    + now apply (candidate_Nge _ _ He').
Qed.

(** C2: for every item, [promo_days_count] is the number of distinct sale
    dates, across all stores of the whole dataset, on which at least one
    promo-candidate row (discount_pct >= 0.10) of the item exists; an item
    without candidate rows has [promo_days_count] 0 on every row. *)
Theorem promo_days_count_distinct_dates (df : list Row) (e : EnrichedRow) :
  In e (main df) ->
  (exists days : list Z,
     NoDup days
     /\ (forall d, In d days <->
           exists e' : EnrichedRow,
             In e' (main df) /\ item_code e' = item_code e
             /\ Nge (discount_pct e') (1 # 10) /\ date_of_sale e' = Some d)
     /\ promo_days_count e = List.length days)
  /\ ((forall e' : EnrichedRow,
         In e' (main df) -> item_code e' = item_code e ->
         ~ Nge (discount_pct e') (1 # 10)) ->
      promo_days_count e = 0%nat).
Proof.
  intro H. split; [now apply counted_days|].
  intro Hnone.
  destruct (counted_days _ _ H) as (days & _ & Hin & ->).
  destruct days as [|d days]; [reflexivity|].
  exfalso. destruct (proj1 (Hin d) (or_introl eq_refl)) as (e' & He' & Hk & Hc & _).
  exact (Hnone e' He' Hk Hc).
Qed.

Lemma promo_days_count_distinct_dates_witness :
  In sample_enriched (main sample_df)
  /\ exists days : list Z,
       NoDup days /\ promo_days_count sample_enriched = List.length days.
Proof.
  assert (I : In sample_enriched (main sample_df))
    by (vm_compute; left; reflexivity).
  split; [exact I|].
  destruct (promo_days_count_distinct_dates sample_df sample_enriched I)
    as ((days & ND & _ & L) & _).
  exists days. split; [exact ND | exact L].
Defined.

(* ================================================================== *)
(** ** Promo coverage *)
(* ================================================================== *)

Lemma main_coverage (df : list Row) (e : EnrichedRow) :
  In e (main df) ->
  promo_store_count e
  = nunique_stores (promo_stores_of (map coverage_base (main df)) (item_code e))
  /\ promo_coverage_pct e
     = coverage_of (promo_store_count e)
                   (nunique_stores (map coverage_base (main df))).
Proof.
  intro H. rewrite main_price. apply main_In in H.
  destruct H as (_ & _ & _ & _ & E).
  set (d3 := calculate_price_index (calculate_uplift (detect_promos df))) in *.
  assert (C : promo_store_count e
              = nunique_stores (promo_stores_of d3 (item_code e)))
    by (rewrite E at 1; reflexivity).
  split; [exact C|]. rewrite C. rewrite E at 1. reflexivity.
Qed.

Lemma Qnat_le (n m : nat) : (n <= m)%nat -> (Qnat n <= Qnat m)%Q.
Proof.
  intro H. unfold Qnat. rewrite <- Zle_Qle. now apply Nat2Z.inj_le.
Qed.

Lemma Qnat_pos (n : nat) : (1 <= n)%nat -> (0 < Qnat n)%Q.
Proof.
  intro H. unfold Qnat. change 0%Q with (inject_Z 0).
  rewrite <- Zlt_Qlt. lia.
Qed.

(** A share of a positive whole, as a percentage. *)
Lemma percentage_bounds (n m : nat) :
  (n <= m)%nat -> (1 <= m)%nat ->
  (0 <= Qnat n / Qnat m * 100 /\ Qnat n / Qnat m * 100 <= 100)%Q.
Proof.
  intros L P.
  pose proof (Qnat_pos P) as Pm. pose proof (Qnat_le L) as Lnm.
  pose proof (Qnat_le (Nat.le_0_l n)) as Pn. change (Qnat 0) with 0%Q in Pn.
  assert (A : (0 <= Qnat n / Qnat m)%Q).
  { apply Qle_shift_div_l; [exact Pm|]. now rewrite Qmult_0_l. }
  assert (B : (Qnat n / Qnat m <= 1)%Q).
  { apply Qle_shift_div_r; [exact Pm|]. now rewrite Qmult_1_l. }
  split; lra.
Qed.

(** C8: for every row of the enriched dataset, [promo_coverage_pct] lies
    in [0, 100] and equals promo_store_count / total_stores * 100, where
    total_stores is the number of distinct stores of the full dataset and
    [promo_store_count] the number of distinct stores among the promo rows
    of the row's item; it is 0 on every row of an item without promo rows. *)
Theorem promo_coverage_bounds (df : list Row) (e : EnrichedRow) :
  In e (main df) ->
  exists (all_stores item_stores : list string) (c : Q),
    NoDup all_stores
    /\ (forall s, In s all_stores <->
          exists e' : EnrichedRow, In e' (main df) /\ store_name e' = s)
    /\ NoDup item_stores
    /\ (forall s, In s item_stores <->
          exists e' : EnrichedRow,
            In e' (main df) /\ item_code e' = item_code e
            /\ is_promo e' = true /\ store_name e' = s)
    /\ promo_store_count e = List.length item_stores
    /\ promo_coverage_pct e = Num c
    /\ (c == Qnat (List.length item_stores) / Qnat (List.length all_stores) * 100)%Q
    /\ (0 <= c)%Q /\ (c <= 100)%Q
    /\ ((forall e' : EnrichedRow,
           In e' (main df) -> item_code e' = item_code e ->
           is_promo e' = false) ->
        promo_store_count e = 0%nat /\ (c == 0)%Q).
Proof.
  intro H. destruct (main_coverage _ _ H) as (Hcount & Hpct).
  set (d3 := map coverage_base (main df)) in *.
  set (all_l := map (fun r : PriceRow => store_name r) d3).
  set (item_l := map (fun r : PriceRow => store_name r)
                     (promo_stores_of d3 (item_code e))).
  assert (Hall : forall s, In s all_l <->
            exists e' : EnrichedRow, In e' (main df) /\ store_name e' = s).
  { intro s. unfold all_l, d3. rewrite map_map, in_map_iff.
    split; intros (e' & A & B); exists e'; tauto. }
  assert (Hitem : forall s, In s item_l <->
            exists e' : EnrichedRow,
              In e' (main df) /\ item_code e' = item_code e
              /\ is_promo e' = true /\ store_name e' = s).
  { intro s. unfold item_l, promo_stores_of. rewrite in_map_iff. split.
    - intros (x & Hs & Hx). apply group_In in Hx. destruct Hx as (Hx & Hk).
      apply filter_In in Hx. destruct Hx as (Hx & Hp).
      unfold d3 in Hx. apply in_map_iff in Hx. destruct Hx as (e' & <- & He').
      exists e'. tauto.
    - intros (e' & He' & Hk & Hp & Hs). exists (coverage_base e').
      split; [exact Hs|]. apply group_In. split; [|exact Hk].
      apply filter_In. split; [|exact Hp]. unfold d3. now apply in_map. }
  assert (Hincl : incl item_l all_l).
  { intros s Hs. apply Hall. apply Hitem in Hs.
    destruct Hs as (e' & He' & _ & _ & Hs). now exists e'. }
  assert (Hpos : (1 <= nunique string_dec all_l)%nat).
  { apply nunique_pos with (x := store_name e). apply Hall. now exists e. }
  pose proof (nunique_le string_dec Hincl) as Hle.
  exists (nodup string_dec all_l), (nodup string_dec item_l).
  exists (Qnat (nunique string_dec item_l) / Qnat (nunique string_dec all_l) * 100)%Q.
  split; [apply NoDup_nodup|].
  split; [intro s; rewrite nodup_In; apply Hall|].
  split; [apply NoDup_nodup|].
  split; [intro s; rewrite nodup_In; apply Hitem|].
  split; [exact Hcount|].
  split.
  { rewrite Hpct, Hcount. unfold coverage_of, of_nat, nunique_stores.
    fold all_l item_l. rewrite ndiv_pos by now apply Qnat_pos. reflexivity. }
  split; [reflexivity|].
  split; [now apply percentage_bounds|].
  split; [now apply percentage_bounds|].
  intro Hnone.
  assert (E : item_l = []).
  { destruct item_l as [|s l] eqn:El; [reflexivity|]. exfalso.
    destruct (proj1 (Hitem s) (or_introl eq_refl)) as (e' & He' & Hk & Hp & _).
    rewrite (Hnone e' He' Hk) in Hp. discriminate Hp. }
  split.
  - rewrite Hcount. unfold nunique_stores. fold item_l. now rewrite E.
  - rewrite E. cbn. unfold Qdiv. now rewrite !Qmult_0_l.
Qed.

Lemma promo_coverage_bounds_witness :
  In sample_enriched (main sample_df)
  /\ exists c : Q,
       promo_coverage_pct sample_enriched = Num c
       /\ (0 <= c)%Q /\ (c <= 100)%Q.
Proof.
  assert (I : In sample_enriched (main sample_df))
    by (vm_compute; left; reflexivity).
  split; [exact I|].
  destruct (promo_coverage_bounds sample_df sample_enriched I)
    as (_ & _ & c & _ & _ & _ & _ & _ & P & _ & L & U & _).
  exists c. split; [exact P|]. split; [exact L | exact U].
Defined.

(* ================================================================== *)
(** ** Means over cohorts *)
(* ================================================================== *)

Lemma filter_filter_andb (T : Type) (p q : T -> bool) (l : list T) :
  filter p (filter q l) = filter (fun x => p x && q x) l.
Proof.
  induction l as [|x l IH]; cbn; [reflexivity|].
  destruct (q x); cbn; rewrite ?andb_true_r, ?andb_false_r.
  - destruct (p x); now rewrite IH.
  - exact IH.
Qed.

Lemma key_eqb_string (a b : string) : key_eqb string_dec a b = String.eqb a b.
Proof.
  unfold key_eqb. destruct (string_dec a b) as [->|N].
  - now rewrite String.eqb_refl.
  - symmetry. now apply String.eqb_neq.
Qed.

Lemma dropnan_Num (qs : list Q) : dropnan (map Num qs) = qs.
Proof. induction qs as [|q qs IH]; cbn; [reflexivity | now rewrite IH]. Qed.

Lemma mean_Num (qs : list Q) :
  mean (map Num qs) = match qs with [] => NaN | _ :: _ => Num (Qmean qs) end.
Proof. unfold mean. rewrite dropnan_Num. now destruct qs. Qed.

(** A column without missing cells is a column of rationals. *)
Lemma defined_column (T : Type) (f : T -> num) (l : list T) :
  (forall x, In x l -> defined (f x)) ->
  exists qs : list Q, map f l = map Num qs.
Proof.
  induction l as [|x l IH]; intro H.
  - now exists [].
  - destruct IH as (qs & E); [intros y Hy; apply H; now right|].
    pose proof (H x (or_introl eq_refl)) as D.
    destruct (f x) as [q|] eqn:Fx; [|contradiction].
    exists (q :: qs). cbn. now rewrite Fx, E.
Qed.

Lemma map_Num_nil (T : Type) (f : T -> num) (l : list T) (qs : list Q) :
  map f l = map Num qs -> (l = [] <-> qs = []).
Proof.
  intro E. destruct l, qs; cbn in E; try discriminate; split; congruence.
Qed.

(** The item groups of [calculate_uplift] are the item rows of the enriched
    frame. *)
Lemma item_group_main (df : list Row) (promo : bool) (k : string) :
  item_group promo (detect_promos df) k
  = map (fun e : EnrichedRow => (e : PromoRow)) (item_rows promo (main df) k).
Proof.
  rewrite <- main_promo. unfold item_group, group, item_rows.
  rewrite !filter_map_swap, filter_filter_andb. f_equal.
  apply filter_ext. intro x. now rewrite key_eqb_string.
Qed.

Lemma main_uplift_fields (df : list Row) (e : EnrichedRow) :
  In e (main df) ->
  baseline_units e
  = fillna (mean (map (fun x : EnrichedRow => quantity x)
                      (item_rows false (main df) (item_code e))))
           (quantity e)
  /\ promo_avg_units e
     = fillna (mean (map (fun x : EnrichedRow => quantity x)
                         (item_rows true (main df) (item_code e))))
              (Num 0)
  /\ promo_uplift_pct e
     = uplift_of (baseline_units e) (promo_avg_units e) (is_promo e).
Proof.
  intro H. apply main_In in H. destruct H as (_ & _ & E & _).
  rewrite E. cbn [baseline_units promo_avg_units promo_uplift_pct uplift_row
                  uplift_base].
  unfold mean_quantity. rewrite !item_group_main, !map_map.
  repeat split; reflexivity.
Qed.

Lemma main_defined_quantity (df : list Row) :
  (forall r, In r df -> defined (quantity r)) ->
  forall e : EnrichedRow, In e (main df) -> defined (quantity e).
Proof. intros Hq e He. apply Hq. apply main_row_iff. now exists e. Qed.

(** Baseline and promo average of a row, over a frame whose quantities are
    all present. *)
Lemma uplift_means (df : list Row) (e : EnrichedRow) :
  (forall r, In r df -> defined (quantity r)) ->
  In e (main df) ->
  exists qn qp : list Q,
    map (fun x : EnrichedRow => quantity x)
        (item_rows false (main df) (item_code e)) = map Num qn
    /\ map (fun x : EnrichedRow => quantity x)
           (item_rows true (main df) (item_code e)) = map Num qp
    /\ baseline_units e
       = match qn with [] => quantity e | _ :: _ => Num (Qmean qn) end
    /\ promo_avg_units e
       = match qp with [] => Num 0 | _ :: _ => Num (Qmean qp) end.
Proof.
  intros Hq He.
  destruct (main_uplift_fields _ _ He) as (B & P & _).
  destruct (defined_column (fun x : EnrichedRow => quantity x)
              (item_rows false (main df) (item_code e))) as (qn & En).
  { intros x Hx. apply filter_In in Hx.
    apply (main_defined_quantity df Hq). tauto. }
  destruct (defined_column (fun x : EnrichedRow => quantity x)
              (item_rows true (main df) (item_code e))) as (qp & Ep).
  { intros x Hx. apply filter_In in Hx.
    apply (main_defined_quantity df Hq). tauto. }
  exists qn, qp. split; [exact En|]. split; [exact Ep|].
  rewrite B, P, En, Ep, !mean_Num. split; [now destruct qn | now destruct qp].
Qed.

(* ================================================================== *)
(** ** Promo uplift *)
(* ================================================================== *)

Lemma uplift_of_Num (b pa : Q) (promo : bool) :
  (promo = true /\ (0 < b)%Q ->
   uplift_of (Num b) (Num pa) promo = Num ((pa - b) / b * 100))
  /\ (~ (promo = true /\ (0 < b)%Q) -> uplift_of (Num b) (Num pa) promo = Num 0).
Proof.
  unfold uplift_of. cbn [ngt]. split.
  - intros (-> & Pos).
    rewrite Qlt_bool_pos by assumption.
    cbn [andb nsub]. now rewrite ndiv_pos.
  - intro N. destruct (Qlt_bool 0 b) eqn:L; [|reflexivity].
    destruct promo; [|reflexivity].
    exfalso. apply N. split; [reflexivity | now apply Qlt_bool_iff].
Qed.

Lemma mean_cases (l : list num) :
  (dropnan l = [] -> mean l = NaN)
  /\ (dropnan l <> [] -> mean l = Num (Qmean (dropnan l))).
Proof.
  unfold mean. destruct (dropnan l) as [|q vs]; split; intro H.
  - reflexivity.
  - now contradiction H.
  - discriminate H.
  - reflexivity.
Qed.

(** C3, as stated, fails: SKU8 has a non-promo row, but that row has no
    quantity, so each promo row of SKU8 takes its own quantity as baseline
    (2 and 4, with uplifts 50 and -25) instead of a mean over the item's
    non-promo rows. *)
Lemma promo_uplift_claim_counterexample :
  ~ (forall e : EnrichedRow,
       In e (main blank_quantity_df) ->
       (item_rows false (main blank_quantity_df) (item_code e) = [] ->
        baseline_units e = quantity e)
       /\ (item_rows false (main blank_quantity_df) (item_code e) <> [] ->
           baseline_units e
           = mean (map (fun x : EnrichedRow => quantity x)
                       (item_rows false (main blank_quantity_df)
                                  (item_code e))))
       /\ promo_uplift_pct e
          = uplift_of (baseline_units e) (promo_avg_units e) (is_promo e)).
Proof.
  intro H.
  assert (I : In blank_quantity_enriched (main blank_quantity_df))
    by (vm_compute; left; reflexivity).
  destruct (H blank_quantity_enriched I) as (_ & B & _).
  assert (N : item_rows false (main blank_quantity_df)
                        (item_code blank_quantity_enriched) <> [])
    by (vm_compute; discriminate).
  specialize (B N). vm_compute in B. discriminate B.
Qed.

(** C3, amended: for every row, [promo_uplift_pct] equals
    ((promo_avg_units - baseline_units) / baseline_units) * 100 exactly when
    the row is promo and [baseline_units] > 0, and 0 otherwise, where
    [baseline_units] is the mean over the quantities that are present on the
    item's non-promo rows (the row's own quantity when there is none) and
    [promo_avg_units] is the mean over the quantities that are present on
    the item's promo rows (0 when there is none). *)
Theorem promo_uplift_formula (df : list Row) (e : EnrichedRow) :
  In e (main df) ->
  (present_quantities false (main df) (item_code e) = [] ->
   baseline_units e = quantity e)
  /\ (present_quantities false (main df) (item_code e) <> [] ->
      baseline_units e
      = Num (Qmean (present_quantities false (main df) (item_code e))))
  /\ (present_quantities true (main df) (item_code e) = [] ->
      promo_avg_units e = Num 0)
  /\ (present_quantities true (main df) (item_code e) <> [] ->
      promo_avg_units e
      = Num (Qmean (present_quantities true (main df) (item_code e))))
  /\ (forall b pa : Q,
        baseline_units e = Num b -> promo_avg_units e = Num pa ->
        (is_promo e = true /\ (0 < b)%Q ->
         promo_uplift_pct e = Num ((pa - b) / b * 100))
        /\ (~ (is_promo e = true /\ (0 < b)%Q) ->
            promo_uplift_pct e = Num 0))
  /\ (baseline_units e = NaN -> promo_uplift_pct e = Num 0)
  /\ defined (promo_avg_units e).
Proof.
  intro He. unfold present_quantities.
  destruct (main_uplift_fields _ _ He) as (B & P & U).
  destruct (mean_cases (map (fun x : EnrichedRow => quantity x)
                            (item_rows false (main df) (item_code e))))
    as (Bn & Bs).
  destruct (mean_cases (map (fun x : EnrichedRow => quantity x)
                            (item_rows true (main df) (item_code e))))
    as (Pn & Ps).
  split; [intro Z; rewrite B, (Bn Z); reflexivity|].
  split; [intro Z; rewrite B, (Bs Z); reflexivity|].
  split; [intro Z; rewrite P, (Pn Z); reflexivity|].
  split; [intro Z; rewrite P, (Ps Z); reflexivity|].
  split; [intros b pa Eb Epa; rewrite U, Eb, Epa; apply uplift_of_Num|].
  split; [intro Eb; rewrite U, Eb; reflexivity|].
  rewrite P.
  destruct (dropnan (map (fun x : EnrichedRow => quantity x)
                         (item_rows true (main df) (item_code e))))
    as [|q vs] eqn:E.
  - rewrite Pn by reflexivity. exact I.
  - rewrite Ps by discriminate. exact I.
Qed.

Lemma promo_uplift_formula_witness :
  In blank_quantity_enriched (main blank_quantity_df)
  /\ present_quantities false (main blank_quantity_df)
                        (item_code blank_quantity_enriched) = []
  /\ baseline_units blank_quantity_enriched
     = quantity blank_quantity_enriched.
Proof.
  assert (He : In blank_quantity_enriched (main blank_quantity_df))
    by (vm_compute; left; reflexivity).
  assert (Z : present_quantities false (main blank_quantity_df)
                                 (item_code blank_quantity_enriched) = [])
    by (vm_compute; reflexivity).
  split; [exact He|]. split; [exact Z|].
  destruct (promo_uplift_formula blank_quantity_df blank_quantity_enriched He)
    as (B & _).
  exact (B Z).
Defined.

(* ================================================================== *)
(** ** Price index over the cohort *)
(* ================================================================== *)

Lemma key_eqb_cohort (a b : Row) :
  key_eqb cohort_dec (cohort a) (cohort b)
  = String.eqb (sub_department a) (sub_department b)
    && String.eqb (section a) (section b)
    && String.eqb (store_name a) (store_name b).
Proof.
  unfold key_eqb, cohort.
  destruct (String.eqb_spec (sub_department a) (sub_department b)) as [E1|N1];
    destruct (String.eqb_spec (section a) (section b)) as [E2|N2];
    destruct (String.eqb_spec (store_name a) (store_name b)) as [E3|N3];
    destruct (cohort_dec _ _) as [E|N]; cbn; try reflexivity;
    solve [ exfalso; apply N; congruence
          | exfalso; injection E; intros; contradiction ].
Qed.

Lemma cohort_rows_In (ds : list EnrichedRow) (e e' : EnrichedRow) :
  In e' (cohort_rows ds e) <-> In e' ds /\ cohort e' = cohort e.
Proof.
  unfold cohort_rows. rewrite filter_In, <- key_eqb_cohort, key_eqb_true.
  reflexivity.
Qed.

(** The cohort of [calculate_price_index] is the cohort of the enriched
    frame. *)
Lemma cohort_group_main (df : list Row) (e : EnrichedRow) :
  cohort_group (calculate_uplift (detect_promos df)) (cohort e)
  = map (fun x : EnrichedRow => (x : UpliftRow)) (cohort_rows (main df) e).
Proof.
  rewrite <- main_uplift. unfold cohort_group, group, cohort_rows.
  rewrite filter_map_swap. f_equal.
  apply filter_ext. intro x. apply key_eqb_cohort.
Qed.

Lemma main_defined_unit_price (df : list Row) :
  (forall r, In r df -> defined (unit_price r)) ->
  forall e : EnrichedRow, In e (main df) -> defined (unit_price e).
Proof. intros Hp e He. apply Hp. apply main_row_iff. now exists e. Qed.

(** The group average of a row, over a frame whose unit prices are all
    present: the mean over the row's cohort, which holds the row itself. *)
Lemma cohort_mean (df : list Row) (e : EnrichedRow) :
  (forall r, In r df -> defined (unit_price r)) ->
  In e (main df) ->
  exists ps : list Q,
    map (fun x : EnrichedRow => unit_price x) (cohort_rows (main df) e)
    = map Num ps
    /\ group_avg_price e = Num (Qmean ps).
Proof.
  intros Hp He.
  destruct (defined_column (fun x : EnrichedRow => unit_price x)
              (cohort_rows (main df) e)) as (ps & E).
  { intros x Hx. apply cohort_rows_In in Hx.
    apply (main_defined_unit_price df Hp). tauto. }
  exists ps. split; [exact E|].
  rewrite (main_group_avg_price _ _ He), cohort_group_main.
  unfold mean_unit_price. rewrite map_map, E, mean_Num.
  destruct ps as [|p ps]; [|reflexivity].
  exfalso.
  assert (I : In e (cohort_rows (main df) e))
    by (apply cohort_rows_In; split; [exact He | reflexivity]).
  replace (cohort_rows (main df) e) with (@nil EnrichedRow) in I; [exact I|].
  symmetry. now apply (map_Num_nil _ _ _ E).
Qed.

Lemma price_index_of_Num (u g : Q) :
  ((0 < g)%Q -> price_index_of (Num u) (Num g) = Num (u / g))
  /\ ((g <= 0)%Q -> price_index_of (Num u) (Num g) = Num 1).
Proof.
  unfold price_index_of. cbn [ngt]. split; intro H.
  - rewrite Qlt_bool_pos by assumption.
    now apply ndiv_pos.
  - destruct (Qlt_bool 0 g) eqn:L; [|reflexivity].
    apply Qlt_bool_iff in L. exfalso. apply (Qlt_not_le _ _ L H).
Qed.

(** C4, as stated, fails: in a cohort whose average unit price is negative
    the index is 1.0, not unit_price / group_avg_price. *)
Lemma price_index_claim_counterexample :
  ~ (forall e : EnrichedRow,
       In e (main refund_df) ->
       forall g u : Q,
         group_avg_price e = Num g ->
         unit_price e = Num u ->
         ((g == 0)%Q -> price_index_vs_comp e = Num 1)
         /\ (~ (g == 0)%Q -> num_eq (price_index_vs_comp e) (Num (u / g)))).
Proof.
  intro H.
  assert (I : In refund_enriched (main refund_df))
    by (vm_compute; left; reflexivity).
  destruct (H refund_enriched I (-8 # 2) (-10) eq_refl eq_refl) as (_ & N).
  assert (C : num_eq (price_index_vs_comp refund_enriched)
                     (Num (-10 / (-8 # 2)))).
  { apply N. intro Z. discriminate Z. }
  vm_compute in C. discriminate C.
Qed.


Lemma main_group_avg_cohort (df : list Row) (e : EnrichedRow) :
  In e (main df) ->
  group_avg_price e
  = mean (map (fun x : EnrichedRow => unit_price x) (cohort_rows (main df) e)).
Proof.
  intro He. rewrite (main_group_avg_price _ _ He), cohort_group_main.
  unfold mean_unit_price. now rewrite map_map.
Qed.

(** C4, amended: for every row, [group_avg_price] is the mean over the unit
    prices that are present on the rows of the row's (sub-department,
    section, store) cohort, Bidco rows included (it is missing when the
    cohort has no unit price), and [price_index_vs_comp] is
    unit_price / group_avg_price when the group average is strictly
    positive (missing when the row's own unit price is) and 1.0 whenever
    the group average is not strictly positive: zero, negative or
    missing. *)
Theorem price_index_formula (df : list Row) (e : EnrichedRow) :
  In e (main df) ->
  (forall e' : EnrichedRow,
     In e' (cohort_rows (main df) e) <->
     In e' (main df) /\ sub_department e' = sub_department e
     /\ section e' = section e /\ store_name e' = store_name e)
  /\ (present_prices (main df) e = [] -> group_avg_price e = NaN)
  /\ (present_prices (main df) e <> [] ->
      group_avg_price e = Num (Qmean (present_prices (main df) e)))
  /\ (forall g : Q,
        group_avg_price e = Num g -> (0 < g)%Q ->
        price_index_vs_comp e
        = match unit_price e with
          | Num u => Num (u / g)
          | NaN => NaN
          end)
  /\ (~ Ngt (group_avg_price e) 0 -> price_index_vs_comp e = Num 1).
Proof.
  intro He. unfold present_prices.
  pose proof (main_group_avg_cohort _ _ He) as G.
  pose proof (main_price_index _ _ He) as X.
  destruct (mean_cases (map (fun x : EnrichedRow => unit_price x)
                            (cohort_rows (main df) e))) as (Gn & Gs).
  split.
  { intro e'. rewrite cohort_rows_In. unfold cohort.
    split; intros (A & B); (split; [exact A|]).
    - injection B. tauto.
    - destruct B as (-> & -> & ->). reflexivity. }
  split; [intro Z; rewrite G; exact (Gn Z)|].
  split; [intro Z; rewrite G; exact (Gs Z)|].
  split.
  - intros g Eg Pg. rewrite X, Eg. unfold price_index_of. cbn [ngt].
    rewrite Qlt_bool_pos by assumption.
    destruct (unit_price e) as [u|]; [now apply ndiv_pos | reflexivity].
  - intro N. rewrite X. unfold price_index_of.
    destruct (ngt (group_avg_price e) 0) eqn:L; [|reflexivity].
    apply ngt_Ngt in L. contradiction.
Qed.

Lemma price_index_formula_witness :
  In refund_enriched (main refund_df)
  /\ ~ Ngt (group_avg_price refund_enriched) 0
  /\ price_index_vs_comp refund_enriched = Num 1.
Proof.
  assert (He : In refund_enriched (main refund_df))
    by (vm_compute; left; reflexivity).
  assert (N : ~ Ngt (group_avg_price refund_enriched) 0)
    by (vm_compute; discriminate).
  split; [exact He|]. split; [exact N|].
  destruct (price_index_formula refund_df refund_enriched He)
    as (_ & _ & _ & _ & D).
  exact (D N).
Defined.

(* ================================================================== *)
(** ** Degenerate aggregates *)
(* ================================================================== *)


Lemma uplift_of_defined (b pa : Q) (promo : bool) :
  defined (uplift_of (Num b) (Num pa) promo).
Proof.
  unfold uplift_of. cbn [ngt].
  destruct (Qlt_bool 0 b) eqn:L; [|exact I].
  destruct promo; [|exact I].
  apply Qlt_bool_iff in L. cbn [andb nsub]. now rewrite ndiv_pos.
Qed.

Lemma price_index_of_defined (u g : Q) : defined (price_index_of (Num u) (Num g)).
Proof.
  unfold price_index_of. cbn [ngt].
  destruct (Qlt_bool 0 g) eqn:L; [|exact I].
  apply Qlt_bool_iff in L. now rewrite ndiv_pos.
Qed.

(** A frame with a row has at least one store. *)
Lemma total_stores_pos (df : list Row) (e : EnrichedRow) :
  In e (main df) ->
  (1 <= nunique_stores (map coverage_base (main df)))%nat.
Proof.
  intro H. unfold nunique_stores.
  apply nunique_pos with (x := store_name e).
  rewrite map_map. apply in_map_iff. now exists e.
Qed.






(* ================================================================== *)
(** ** Cleaned rows with a non-positive quantity *)
(* ================================================================== *)

Section CleanedRows.
Variables str_strip str_title str_upper : string -> string.

Lemma clean_data_In (raw : list RawRow) (r : Row) :
  In r (clean_data str_strip str_title str_upper raw) ->
  exists x, In x raw /\ r = clean_row str_strip str_title str_upper x.
Proof.
  unfold clean_data, drop_duplicates. intro H.
  apply drop_duplicates_from_In in H. apply in_map_iff in H.
  destruct H as (x & E & H). exists x. now split.
Qed.

Lemma cleaned_unit_price (raw : list RawRow) (r : Row) :
  In r (clean_data str_strip str_title str_upper raw) ->
  unit_price r = unit_price_of (quantity r) (total_sales r).
Proof.
  intro H. apply clean_data_In in H. destruct H as (x & _ & ->). reflexivity.
Qed.
End CleanedRows.

Lemma unit_price_of_nonpositive (q : Q) (ts : num) :
  (q <= 0)%Q -> unit_price_of (Num q) ts = Num 0.
Proof.
  intro H. unfold unit_price_of. cbn [ngt].
  destruct (Qlt_bool 0 q) eqn:L; [|reflexivity].
  apply Qlt_bool_iff in L. exfalso. apply (Qlt_not_le _ _ L H).
Qed.

(** C10: a cleaned row with quantity <= 0 and RRP > 0 has unit price 0 from
    the cleaning stage, so the transformation core gives it [discount_pct] 1
    and it is a promo candidate whose sale date is counted in the item's
    [promo_days_count]. *)
Theorem nonpositive_quantity_is_candidate
        (str_strip str_title str_upper : string -> string)
        (raw : list RawRow) (e : EnrichedRow) (q p : Q) :
  In e (main (clean_data str_strip str_title str_upper raw)) ->
  quantity e = Num q -> (q <= 0)%Q ->
  rrp e = Num p -> (0 < p)%Q ->
  unit_price e = Num 0
  /\ num_eq (discount_pct e) (Num 1)
  /\ Nge (discount_pct e) (1 # 10)
  /\ (forall d, date_of_sale e = Some d ->
        (1 <= promo_days_count e)%nat
        /\ exists days : list Z,
             NoDup days /\ In d days
             /\ (forall d', In d' days <->
                   exists e' : EnrichedRow,
                     In e' (main (clean_data str_strip str_title str_upper raw))
                     /\ item_code e' = item_code e
                     /\ Nge (discount_pct e') (1 # 10)
                     /\ date_of_sale e' = Some d')
             /\ promo_days_count e = List.length days).
Proof.
  intros He Hq Lq Hp Pp.
  set (df := clean_data str_strip str_title str_upper raw) in *.
  assert (Hr : In (e : Row) df) by (apply main_row_iff; now exists e).
  assert (U : unit_price e = Num 0).
  { rewrite (cleaned_unit_price _ _ _ _ _ Hr), Hq.
    now apply unit_price_of_nonpositive. }
  assert (D : discount_pct e = Num ((p - 0) / p)).
  { rewrite (main_discount_pct _ _ He). unfold discount_of.
    rewrite Hp, U. cbn [ngt nsub].
    rewrite Qlt_bool_pos by assumption.
    now apply ndiv_pos. }
  assert (One : ((p - 0) / p == 1)%Q).
  { field. intro Z. rewrite Z in Pp. apply (Qlt_irrefl 0 Pp). }
  assert (C : Nge (discount_pct e) (1 # 10)).
  { rewrite D. cbn. rewrite One. discriminate. }
  split; [exact U|]. split; [rewrite D; exact One|]. split; [exact C|].
  intros d Hd.
  destruct (counted_days _ _ He) as (days & ND & Hin & Hlen).
  assert (Id : In d days) by (apply Hin; exists e; tauto).
  split.
  - rewrite Hlen. destruct days; [contradiction | cbn; lia].
  - exists days. tauto.
Qed.

Lemma nonpositive_quantity_is_candidate_witness :
  In returns_enriched (main (clean_plain returns_raw))
  /\ quantity returns_enriched = Num (-2)
  /\ rrp returns_enriched = Num 100
  /\ unit_price returns_enriched = Num 0
  /\ Nge (discount_pct returns_enriched) (1 # 10).
Proof.
  assert (He : In returns_enriched (main (clean_plain returns_raw)))
    by (vm_compute; left; reflexivity).
  assert (Lq : (-2 <= 0)%Q) by discriminate.
  assert (Pp : (0 < 100)%Q) by reflexivity.
  split; [exact He|]. split; [reflexivity|]. split; [reflexivity|].
  destruct (nonpositive_quantity_is_candidate
              (fun s => s) (fun s => s) (fun s => s) returns_raw
              returns_enriched He eq_refl Lq eq_refl Pp)
    as (U & _ & C & _).
  split; [exact U | exact C].
Defined.

(* ================================================================== *)
(** ** More on drop_duplicates *)
(* ================================================================== *)

Section DropDuplicates.
Variables (A K : Type).
Variable K_dec : forall x y : K, {x = y} + {x <> y}.
Variable key : A -> K.

(** A row is kept exactly when it stands at a first occurrence of its key
    and the key was not seen before. *)
Lemma drop_duplicates_from_In_iff (df : list A) :
  forall (seen : list K) (r : A),
    In r (drop_duplicates_from K_dec key seen df)
    <-> exists l1 l2,
          df = l1 ++ r :: l2
          /\ ~ In (key r) (map key l1)
          /\ ~ In (key r) seen.
Proof.
  induction df as [|x df IH]; intros seen r; cbn [drop_duplicates_from].
  - split; [intros [] | intros (l1 & l2 & E & _)]. now destruct l1.
  - destruct (in_dec K_dec (key x) seen) as [Hs|Hs].
    + rewrite IH. split.
      * intros (l1 & l2 & -> & N1 & N2). exists (x :: l1), l2.
        split; [reflexivity|]. split; [|exact N2].
        cbn. intros [E|E]; [|now apply N1]. apply N2. now rewrite <- E.
      * intros (l1 & l2 & E & N1 & N2). destruct l1 as [|y l1].
        -- cbn in E. injection E as -> ->. contradiction.
        -- cbn in E. injection E as -> ->. exists l1, l2.
           split; [reflexivity|]. split; [|exact N2].
           intro I. apply N1. now right.
    + cbn [In]. rewrite IH. split.
      * intros [<-|(l1 & l2 & -> & N1 & N2)].
        -- exists [], df. cbn. tauto.
        -- exists (x :: l1), l2. split; [reflexivity|]. cbn in *. tauto.
      * intros (l1 & l2 & E & N1 & N2). destruct l1 as [|y l1].
        -- cbn in E. injection E as -> ->. now left.
        -- cbn in E. injection E as -> ->. right. exists l1, l2.
           cbn in *. tauto.
Qed.

Lemma drop_duplicates_from_NoDup (df : list A) :
  forall seen, NoDup (map key (drop_duplicates_from K_dec key seen df)).
Proof.
  induction df as [|x df IH]; intro seen; cbn [drop_duplicates_from].
  - constructor.
  - destruct (in_dec K_dec (key x) seen) as [Hs|Hs]; [apply IH|].
    cbn. constructor; [|apply IH].
    intro I. apply in_map_iff in I. destruct I as (r & E & I).
    apply drop_duplicates_from_In_iff in I.
    destruct I as (_ & _ & _ & _ & N). apply N. left. now symmetry.
Qed.

Lemma drop_duplicates_from_unique (df : list A) :
  forall seen,
    NoDup (map key df) ->
    (forall r, In r df -> ~ In (key r) seen) ->
    drop_duplicates_from K_dec key seen df = df.
Proof.
  induction df as [|x df IH]; intros seen ND Hs; [reflexivity|].
  cbn [drop_duplicates_from].
  destruct (in_dec K_dec (key x) seen) as [I|_].
  - exfalso. apply (Hs x); [now left | exact I].
  - f_equal. cbn in ND. inversion ND as [|k ks Nx ND']; subst.
    apply IH; [exact ND'|]. intros r Hr [E|I].
    + apply Nx. rewrite E. now apply in_map.
    + apply (Hs r); [now right | exact I].
Qed.

(** The first row that carries a key. *)
Lemma first_occurrence (df : list A) (k : K) :
  In k (map key df) ->
  exists l1 r l2,
    df = l1 ++ r :: l2 /\ key r = k /\ ~ In k (map key l1).
Proof.
  induction df as [|x df IH]; [intros []|].
  intro I. destruct (K_dec (key x) k) as [E|N].
  - exists [], x, df. cbn. tauto.
  - destruct I as [E|I]; [contradiction|].
    destruct (IH I) as (l1 & r & l2 & -> & E & N1).
    exists (x :: l1), r, l2. cbn. tauto.
Qed.

Lemma drop_duplicates_keeps_keys (df : list A) (x : A) :
  In x df ->
  exists r, In r (drop_duplicates K_dec key df) /\ key r = key x.
Proof.
  intro I.
  destruct (first_occurrence df (key x)) as (l1 & r & l2 & E & Ek & N);
    [now apply in_map|].
  exists r. split; [|exact Ek].
  apply drop_duplicates_from_In_iff. exists l1, l2.
  rewrite Ek. cbn. tauto.
Qed.
End DropDuplicates.

(* ================================================================== *)
(** ** The cleaning stage *)
(* ================================================================== *)

Lemma NoDup_by_nodup (T : Type) (dec : forall x y : T, {x = y} + {x <> y})
      (l : list T) :
  nodup dec l = l -> NoDup l.
Proof. intros <-. apply NoDup_nodup. Qed.

(** X1: after cleaning no two rows share store, item and sale date. *)
Theorem cleaned_keys_unique
        (str_strip str_title str_upper : string -> string)
        (raw : list RawRow) :
  NoDup (map duplicate_key (clean_data str_strip str_title str_upper raw)).
Proof. unfold clean_data, drop_duplicates. apply drop_duplicates_from_NoDup. Qed.

(** X2: the cleaned frame holds exactly the standardized rows that stand at
    the first occurrence of their (store, item, date) key: the first of a
    run of duplicates is kept and the later ones are dropped. *)
Theorem cleaned_rows_first_occurrence
        (str_strip str_title str_upper : string -> string)
        (raw : list RawRow) (r : Row) :
  In r (clean_data str_strip str_title str_upper raw)
  <-> exists l1 l2 : list Row,
        map (clean_row str_strip str_title str_upper) raw = l1 ++ r :: l2
        /\ ~ In (duplicate_key r) (map duplicate_key l1).
Proof.
  unfold clean_data, drop_duplicates.
  rewrite drop_duplicates_from_In_iff.
  split; intros (l1 & l2 & H); exists l1, l2; cbn in *; tauto.
Qed.

(** X3: every (store, item, date) key of the raw frame is still present
    after cleaning. *)
Theorem cleaned_keys_survive
        (str_strip str_title str_upper : string -> string)
        (raw : list RawRow) (x : RawRow) :
  In x raw ->
  exists r : Row,
    In r (clean_data str_strip str_title str_upper raw)
    /\ duplicate_key r
       = duplicate_key (clean_row str_strip str_title str_upper x).
Proof.
  intro H. unfold clean_data. apply drop_duplicates_keeps_keys.
  now apply in_map.
Qed.

Lemma cleaned_keys_survive_witness :
  In (raw_sale "A" "SKU1" 1 3 255 100) messy_raw
  /\ exists r : Row,
       In r (clean_plain messy_raw)
       /\ duplicate_key r = ("A"%string, "SKU1"%string, Some 1%Z).
Proof.
  assert (H : In (raw_sale "A" "SKU1" 1 3 255 100) messy_raw)
    by (vm_compute; left; reflexivity).
  split; [exact H|].
  exact (cleaned_keys_survive (fun s => s) (fun s => s) (fun s => s)
                               messy_raw _ H).
Defined.

(** X4: when the standardized rows carry distinct keys, cleaning drops
    nothing: the cleaned frame is the raw frame, row for row. *)
Theorem cleaning_keeps_distinct_rows
        (str_strip str_title str_upper : string -> string)
        (raw : list RawRow) :
  NoDup (map duplicate_key (map (clean_row str_strip str_title str_upper) raw)) ->
  clean_data str_strip str_title str_upper raw
  = map (clean_row str_strip str_title str_upper) raw.
Proof.
  intro ND. unfold clean_data, drop_duplicates.
  apply drop_duplicates_from_unique; [exact ND | intros r _ []].
Qed.

Lemma cleaning_keeps_distinct_rows_witness :
  NoDup (map duplicate_key
             (map (clean_row (fun s => s) (fun s => s) (fun s => s)) sample_raw))
  /\ clean_plain sample_raw
     = map (clean_row (fun s => s) (fun s => s) (fun s => s)) sample_raw.
Proof.
  assert (ND : NoDup (map duplicate_key
                (map (clean_row (fun s => s) (fun s => s) (fun s => s))
                     sample_raw)))
    by (apply (NoDup_by_nodup dedup_dec); vm_compute; reflexivity).
  split; [exact ND|].
  exact (cleaning_keeps_distinct_rows (fun s => s) (fun s => s) (fun s => s)
                                      sample_raw ND).
Defined.

(** X5: in a cleaned row with a positive quantity the unit price times the
    quantity gives the total back; without a positive quantity (zero,
    negative or missing) the unit price is 0. *)
Theorem cleaned_unit_price_round_trip
        (str_strip str_title str_upper : string -> string)
        (raw : list RawRow) (r : Row) :
  In r (clean_data str_strip str_title str_upper raw) ->
  (forall q t : Q,
     quantity r = Num q -> (0 < q)%Q -> total_sales r = Num t ->
     exists u : Q, unit_price r = Num u /\ (u * q == t)%Q)
  /\ (~ Ngt (quantity r) 0 -> unit_price r = Num 0).
Proof.
  intro H. rewrite (cleaned_unit_price _ _ _ _ _ H). unfold unit_price_of.
  split.
  - intros q t -> Pos ->. cbn [ngt]. rewrite Qlt_bool_pos by assumption.
    rewrite ndiv_pos by assumption. exists (t / q)%Q. split; [reflexivity|].
    field. intro Z. rewrite Z in Pos. apply (Qlt_irrefl 0 Pos).
  - intro N. destruct (ngt (quantity r) 0) eqn:G; [|reflexivity].
    apply ngt_Ngt in G. contradiction.
Qed.

Lemma cleaned_unit_price_round_trip_witness :
  exists r : Row,
    In r (clean_plain sample_raw)
    /\ quantity r = Num 3
    /\ exists u : Q, unit_price r = Num u /\ (u * 3 == 255)%Q.
Proof.
  exists (clean_row (fun s => s) (fun s => s) (fun s => s)
                    (raw_sale "A" "SKU1" 1 3 255 100)).
  assert (H : In (clean_row (fun s => s) (fun s => s) (fun s => s)
                            (raw_sale "A" "SKU1" 1 3 255 100))
                 (clean_plain sample_raw))
    by (vm_compute; left; reflexivity).
  split; [exact H|]. split; [reflexivity|].
  destruct (cleaned_unit_price_round_trip
              (fun s => s) (fun s => s) (fun s => s) sample_raw _ H)
    as (RT & _).
  exact (RT 3 255 eq_refl eq_refl eq_refl).
Defined.

(* ================================================================== *)
(** ** Data-quality tiers *)
(* ================================================================== *)

Lemma nlt_Nlt x c : nlt x c = true <-> Nlt x c.
Proof. destruct x; simpl; [apply Qlt_bool_iff | split; [discriminate | tauto]]. Qed.

Lemma cleaned_flag (str_strip str_title str_upper : string -> string)
      (raw : list RawRow) (r : Row) :
  In r (clean_data str_strip str_title str_upper raw) ->
  data_quality_flag r
  = quality_flag_of (store_name r) (item_code r) (date_of_sale r)
                    (quantity r) (total_sales r) (rrp r) (unit_price r).
Proof.
  intro H. apply clean_data_In in H. destruct H as (x & _ & ->). reflexivity.
Qed.

Lemma quality_flag_low_iff (store item : string) (d : date) (q ts p up : num) :
  quality_flag_of store item d q ts p up = low
  <-> nlt q 0 = true \/ nlt ts 0 = true
      \/ store = ""%string \/ item = ""%string \/ d = None.
Proof.
  unfold quality_flag_of.
  destruct (nlt q 0), (nlt ts 0), (isna p || nle p 0),
    (ngt (ndiv (nabs (nsub up p)) p) (1 # 2) && ngt p 0),
    (String.eqb_spec store ""), (String.eqb_spec item ""), d;
    cbn; split; intro H;
    try discriminate H; try reflexivity; try tauto;
    repeat (destruct H as [H|H]); try discriminate H; try contradiction.
Qed.

Lemma quality_flag_high (store item : string) (d : date) (q ts p up : num) :
  quality_flag_of store item d q ts p up = high ->
  nlt q 0 = false /\ nlt ts 0 = false
  /\ isna p = false /\ nle p 0 = false
  /\ ngt (ndiv (nabs (nsub up p)) p) (1 # 2) && ngt p 0 = false
  /\ store <> ""%string /\ item <> ""%string /\ d <> None.
Proof.
  unfold quality_flag_of.
  destruct (nlt q 0), (nlt ts 0), (isna p), (nle p 0),
    (ngt (ndiv (nabs (nsub up p)) p) (1 # 2) && ngt p 0),
    (String.eqb_spec store ""), (String.eqb_spec item ""), d;
    cbn; intro H; try discriminate H; repeat split; congruence.
Qed.

(** X6: a cleaned row is in the low tier exactly when its quantity or its
    total is negative, or its store or item is empty, or its date is
    missing; a missing quantity or total alone does not make it low. *)
Theorem low_tier_iff
        (str_strip str_title str_upper : string -> string)
        (raw : list RawRow) (r : Row) :
  In r (clean_data str_strip str_title str_upper raw) ->
  data_quality_flag r = low
  <-> Nlt (quantity r) 0 \/ Nlt (total_sales r) 0
      \/ store_name r = ""%string \/ item_code r = ""%string
      \/ date_of_sale r = None.
Proof.
  intro H. rewrite (cleaned_flag _ _ _ _ _ H), quality_flag_low_iff.
  now rewrite !nlt_Nlt.
Qed.

Lemma low_tier_iff_witness :
  exists r : Row,
    In r (clean_plain returns_raw)
    /\ Nlt (quantity r) 0
    /\ data_quality_flag r = low.
Proof.
  exists (clean_row (fun s => s) (fun s => s) (fun s => s)
                    (raw_sale "A" "SKU7" 3 (-2) (-170) 100)).
  assert (H : In (clean_row (fun s => s) (fun s => s) (fun s => s)
                            (raw_sale "A" "SKU7" 3 (-2) (-170) 100))
                 (clean_plain returns_raw))
    by (vm_compute; left; reflexivity).
  assert (N : Nlt (quantity
                     (clean_row (fun s => s) (fun s => s) (fun s => s)
                                (raw_sale "A" "SKU7" 3 (-2) (-170) 100))) 0)
    by reflexivity.
  split; [exact H|]. split; [exact N|].
  apply (low_tier_iff (fun s => s) (fun s => s) (fun s => s) returns_raw _ H).
  left. exact N.
Defined.

(** X7: a cleaned row in the high tier has a positive quantity, a positive
    RRP, a total that is not negative, a store, an item and a date, and a
    unit price, when present, within 50% of the RRP. *)
Theorem high_tier_guarantees
        (str_strip str_title str_upper : string -> string)
        (raw : list RawRow) (r : Row) :
  In r (clean_data str_strip str_title str_upper raw) ->
  data_quality_flag r = high ->
  Ngt (quantity r) 0
  /\ Ngt (rrp r) 0
  /\ ~ Nlt (total_sales r) 0
  /\ store_name r <> ""%string
  /\ item_code r <> ""%string
  /\ date_of_sale r <> None
  /\ (forall u p : Q,
        unit_price r = Num u -> rrp r = Num p ->
        ((1 # 2) * p <= u)%Q /\ (u <= (3 # 2) * p)%Q).
Proof.
  intros H F. rewrite (cleaned_flag _ _ _ _ _ H) in F.
  apply quality_flag_high in F.
  destruct F as (Fq & Fts & Fna & Fle & Fdev & Fs & Fi & Fd).
  pose proof (cleaned_unit_price _ _ _ _ _ H) as U.
  destruct (rrp r) as [p|] eqn:Ep; [|discriminate Fna].
  assert (Pp : (0 < p)%Q).
  { apply Qnot_le_lt. intro L. cbn in Fle.
    apply Qle_bool_iff in L. congruence. }
  cbn [ngt] in Fdev. rewrite Qlt_bool_pos, andb_true_r in Fdev by assumption.
  assert (Pnz : ~ (p == 0)%Q)
    by (intro Z; rewrite Z in Pp; apply (Qlt_irrefl 0 Pp)).
  assert (Dev : forall u, unit_price r = Num u ->
                          (Qabs (u - p) <= (1 # 2) * p)%Q).
  { intros u Eu. rewrite Eu in Fdev. cbn [nsub nabs] in Fdev.
    rewrite ndiv_pos in Fdev by assumption. cbn [ngt] in Fdev.
    assert (L : (Qabs (u - p) / p <= 1 # 2)%Q).
    { apply Qnot_lt_le. intro G. apply Qlt_bool_iff in G. congruence. }
    setoid_replace (Qabs (u - p)) with (Qabs (u - p) / p * p)%Q
      by (field; exact Pnz).
    apply Qmult_le_compat_r; [exact L | now apply Qlt_le_weak]. }
  assert (Gq : Ngt (quantity r) 0).
  { destruct (ngt (quantity r) 0) eqn:G; [now apply ngt_Ngt|]. exfalso.
    unfold unit_price_of in U. rewrite G in U.
    pose proof (Dev 0 U) as D. apply Qabs_Qle_condition in D. lra. }
  split; [exact Gq|]. split; [exact Pp|].
  split; [intro N; apply nlt_Nlt in N; congruence|].
  split; [exact Fs|]. split; [exact Fi|]. split; [exact Fd|].
  intros u p' Eu Ep'. injection Ep' as <-.
  pose proof (Dev u Eu) as D. apply Qabs_Qle_condition in D. split; lra.
Qed.

Lemma high_tier_guarantees_witness :
  exists r : Row,
    In r (clean_plain sample_raw)
    /\ data_quality_flag r = high
    /\ Ngt (quantity r) 0 /\ Ngt (rrp r) 0.
Proof.
  exists (clean_row (fun s => s) (fun s => s) (fun s => s)
                    (raw_sale "A" "SKU1" 1 3 255 100)).
  assert (H : In (clean_row (fun s => s) (fun s => s) (fun s => s)
                            (raw_sale "A" "SKU1" 1 3 255 100))
                 (clean_plain sample_raw))
    by (vm_compute; left; reflexivity).
  assert (F : data_quality_flag
                (clean_row (fun s => s) (fun s => s) (fun s => s)
                           (raw_sale "A" "SKU1" 1 3 255 100)) = high)
    by (vm_compute; reflexivity).
  split; [exact H|]. split; [exact F|].
  destruct (high_tier_guarantees
              (fun s => s) (fun s => s) (fun s => s) sample_raw _ H F)
    as (Gq & Gp & _).
  split; [exact Gq | exact Gp].
Defined.

(* ================================================================== *)
(** ** Aggregates are attached per item and per cohort *)
(* ================================================================== *)

(** X8: two rows of the same item carry the same [promo_days_count],
    [promo_avg_units], [promo_store_count] and [promo_coverage_pct],
    whatever their stores and their own promo flags. *)
Theorem item_aggregates_shared (df : list Row) (e1 e2 : EnrichedRow) :
  In e1 (main df) -> In e2 (main df) ->
  item_code e1 = item_code e2 ->
  promo_days_count e1 = promo_days_count e2
  /\ promo_avg_units e1 = promo_avg_units e2
  /\ promo_store_count e1 = promo_store_count e2
  /\ promo_coverage_pct e1 = promo_coverage_pct e2.
Proof.
  intros H1 H2 E.
  destruct (main_uplift_fields _ _ H1) as (_ & P1 & _).
  destruct (main_uplift_fields _ _ H2) as (_ & P2 & _).
  destruct (main_coverage _ _ H1) as (C1 & V1).
  destruct (main_coverage _ _ H2) as (C2 & V2).
  assert (C : promo_store_count e1 = promo_store_count e2)
    by (rewrite C1, C2, E; reflexivity).
  split; [rewrite !(main_promo_days_count df) by assumption; now rewrite E|].
  split; [rewrite P1, P2, E; reflexivity|].
  split; [exact C|]. rewrite V1, V2, C. reflexivity.
Qed.

Lemma item_aggregates_shared_witness :
  In sample_enriched (main sample_df)
  /\ In (nth 2 (main sample_df) sample_enriched) (main sample_df)
  /\ store_name sample_enriched <> store_name (nth 2 (main sample_df) sample_enriched)
  /\ promo_days_count sample_enriched
     = promo_days_count (nth 2 (main sample_df) sample_enriched)
  /\ promo_coverage_pct sample_enriched
     = promo_coverage_pct (nth 2 (main sample_df) sample_enriched).
Proof.
  assert (H1 : In sample_enriched (main sample_df))
    by (vm_compute; left; reflexivity).
  assert (H2 : In (nth 2 (main sample_df) sample_enriched) (main sample_df))
    by (vm_compute; right; right; left; reflexivity).
  assert (E : item_code sample_enriched
              = item_code (nth 2 (main sample_df) sample_enriched))
    by (vm_compute; reflexivity).
  split; [exact H1|]. split; [exact H2|].
  split; [vm_compute; discriminate|].
  destruct (item_aggregates_shared sample_df _ _ H1 H2 E) as (D & _ & _ & V).
  split; [exact D | exact V].
Defined.

(** X9: two rows of the same sub-department, section and store carry the
    same [group_avg_price]. *)
Theorem cohort_average_shared (df : list Row) (e1 e2 : EnrichedRow) :
  In e1 (main df) -> In e2 (main df) ->
  sub_department e1 = sub_department e2 ->
  section e1 = section e2 ->
  store_name e1 = store_name e2 ->
  group_avg_price e1 = group_avg_price e2.
Proof.
  intros H1 H2 Ed Es Et.
  rewrite !(main_group_avg_price df) by assumption.
  unfold cohort. now rewrite Ed, Es, Et.
Qed.

Lemma cohort_average_shared_witness :
  In sample_enriched (main sample_df)
  /\ In (nth 3 (main sample_df) sample_enriched) (main sample_df)
  /\ item_code sample_enriched <> item_code (nth 3 (main sample_df) sample_enriched)
  /\ group_avg_price sample_enriched
     = group_avg_price (nth 3 (main sample_df) sample_enriched).
Proof.
  assert (H1 : In sample_enriched (main sample_df))
    by (vm_compute; left; reflexivity).
  assert (H2 : In (nth 3 (main sample_df) sample_enriched) (main sample_df))
    by (vm_compute; right; right; right; left; reflexivity).
  split; [exact H1|]. split; [exact H2|].
  split; [vm_compute; discriminate|].
  apply (cohort_average_shared sample_df _ _ H1 H2); vm_compute; reflexivity.
Defined.

(* ================================================================== *)
(** ** What a promo flag implies *)
(* ================================================================== *)

(** X10: a promo row is never alone: its item has promo rows on at least
    two different sale dates. *)
Theorem promo_spans_two_dates (df : list Row) (e : EnrichedRow) :
  In e (main df) ->
  is_promo e = true ->
  exists (e1 e2 : EnrichedRow) (d1 d2 : Z),
    In e1 (main df) /\ In e2 (main df)
    /\ item_code e1 = item_code e /\ item_code e2 = item_code e
    /\ is_promo e1 = true /\ is_promo e2 = true
    /\ date_of_sale e1 = Some d1 /\ date_of_sale e2 = Some d2
    /\ d1 <> d2.
Proof.
  intros H P.
  rewrite (main_is_promo _ _ H) in P. apply andb_true_iff in P.
  destruct P as (_ & L). apply Nat.leb_le in L. unfold PROMO_MIN_DAYS in L.
  destruct (counted_days _ _ H) as (days & ND & Hin & Hlen).
  rewrite Hlen in L.
  destruct days as [|d1 [|d2 days]]; cbn in L; try lia.
  assert (Promo : forall d, In d (d1 :: d2 :: days) ->
            exists e' : EnrichedRow,
              In e' (main df) /\ item_code e' = item_code e
              /\ is_promo e' = true /\ date_of_sale e' = Some d).
  { intros d Hd. apply Hin in Hd. destruct Hd as (e' & He' & Ek & Ec & Ed).
    exists e'. repeat split; try assumption.
    rewrite (main_is_promo _ _ He'), andb_true_iff. split.
    - now apply (candidate_Nge _ _ He').
    - apply Nat.leb_le.
      rewrite (main_promo_days_count _ _ He'), Ek,
        <- (main_promo_days_count _ _ H), Hlen.
      unfold PROMO_MIN_DAYS. cbn. lia. }
  destruct (Promo d1 (or_introl eq_refl)) as (e1 & I1 & K1 & P1 & D1).
  destruct (Promo d2 (or_intror (or_introl eq_refl))) as (e2 & I2 & K2 & P2 & D2).
  exists e1, e2, d1, d2. repeat split; try assumption.
  intros ->. inversion ND as [|x l N _]; subst. apply N. now left.
Qed.

Lemma promo_spans_two_dates_witness :
  In sample_enriched (main sample_df)
  /\ is_promo sample_enriched = true
  /\ exists e1 e2 : EnrichedRow,
       In e1 (main sample_df) /\ In e2 (main sample_df)
       /\ date_of_sale e1 <> date_of_sale e2.
Proof.
  assert (H : In sample_enriched (main sample_df))
    by (vm_compute; left; reflexivity).
  assert (P : is_promo sample_enriched = true) by (vm_compute; reflexivity).
  split; [exact H|]. split; [exact P|].
  destruct (promo_spans_two_dates sample_df sample_enriched H P)
    as (e1 & e2 & d1 & d2 & I1 & I2 & _ & _ & _ & _ & D1 & D2 & N).
  exists e1, e2. split; [exact I1|]. split; [exact I2|].
  rewrite D1, D2. intro E. apply N. injection E as E'. exact E'.
Defined.

(** X11: [promo_store_count] is at least 1 exactly for the items that have
    a promo row; on a promo row [promo_coverage_pct] is strictly
    positive. *)
Theorem promo_store_count_positive (df : list Row) (e : EnrichedRow) :
  In e (main df) ->
  ((1 <= promo_store_count e)%nat
   <-> exists e' : EnrichedRow,
         In e' (main df) /\ item_code e' = item_code e /\ is_promo e' = true)
  /\ (is_promo e = true -> Ngt (promo_coverage_pct e) 0).
Proof.
  intro H. destruct (main_coverage _ _ H) as (C & V).
  set (d3 := map coverage_base (main df)) in *.
  assert (Hin : forall x : PriceRow,
            In x (promo_stores_of d3 (item_code e))
            <-> exists e' : EnrichedRow,
                  In e' (main df) /\ coverage_base e' = x
                  /\ item_code e' = item_code e /\ is_promo e' = true).
  { intro x. unfold promo_stores_of. rewrite group_In, filter_In.
    unfold d3. rewrite in_map_iff. split.
    - intros (((e' & <- & He') & Hp) & Hk). exists e'. tauto.
    - intros (e' & He' & <- & Hk & Hp). split; [split|]; try assumption.
      now exists e'. }
  assert (Iff : (1 <= promo_store_count e)%nat
                <-> exists e' : EnrichedRow,
                      In e' (main df) /\ item_code e' = item_code e
                      /\ is_promo e' = true).
  { rewrite C. unfold nunique_stores. split.
    - intro L.
      destruct (promo_stores_of d3 (item_code e)) as [|x l] eqn:E;
        [cbn in L; lia|].
      destruct (proj1 (Hin x)) as (e' & He' & _ & Hk & Hp);
        [first [left; reflexivity | rewrite E; left; reflexivity]|].
      exists e'. tauto.
    - intros (e' & He' & Hk & Hp).
      apply nunique_pos with (x := store_name e').
      apply in_map_iff. exists (coverage_base e'). split; [reflexivity|].
      apply Hin. exists e'. tauto. }
  split; [exact Iff|].
  intro P.
  assert (L : (1 <= promo_store_count e)%nat)
    by (apply Iff; exists e; tauto).
  rewrite V. unfold coverage_of, of_nat.
  pose proof (Qnat_pos (total_stores_pos df e H)) as Pt. fold d3 in Pt.
  rewrite ndiv_pos by exact Pt. cbn.
  pose proof (Qnat_pos L) as Pc.
  assert (0 < Qnat (promo_store_count e) / Qnat (nunique_stores d3))%Q
    by (apply Qlt_shift_div_l; [exact Pt | now rewrite Qmult_0_l]).
  lra.
Qed.

Lemma promo_store_count_positive_witness :
  In sample_enriched (main sample_df)
  /\ is_promo sample_enriched = true
  /\ Ngt (promo_coverage_pct sample_enriched) 0.
Proof.
  assert (H : In sample_enriched (main sample_df))
    by (vm_compute; left; reflexivity).
  assert (P : is_promo sample_enriched = true) by (vm_compute; reflexivity).
  split; [exact H|]. split; [exact P|].
  destruct (promo_store_count_positive sample_df sample_enriched H) as (_ & G).
  exact (G P).
Defined.

(* ================================================================== *)
(** ** Discount, uplift and index, read as comparisons *)
(* ================================================================== *)

(** X12: a row with a positive RRP is a promo candidate (discount_pct >=
    0.10) exactly when its unit price is at most 90% of the RRP. *)
Theorem candidate_iff_price (df : list Row) (e : EnrichedRow) (p u : Q) :
  In e (main df) ->
  rrp e = Num p -> (0 < p)%Q ->
  unit_price e = Num u ->
  Nge (discount_pct e) (1 # 10) <-> (u <= (9 # 10) * p)%Q.
Proof.
  intros H Ep Pp Eu.
  rewrite (main_discount_pct _ _ H). unfold discount_of.
  rewrite Ep, Eu. cbn [ngt nsub]. rewrite Qlt_bool_pos by assumption.
  rewrite ndiv_pos by assumption. cbn [Nge].
  assert (Pnz : ~ (p == 0)%Q)
    by (intro Z; rewrite Z in Pp; apply (Qlt_irrefl 0 Pp)).
  split; intro L.
  - assert (M : ((1 # 10) * p <= (p - u) / p * p)%Q)
      by (apply Qmult_le_compat_r; [exact L | now apply Qlt_le_weak]).
    setoid_replace ((p - u) / p * p)%Q with (p - u)%Q in M
      by (field; exact Pnz).
    lra.
  - apply Qle_shift_div_l; [exact Pp | lra].
Qed.

Lemma candidate_iff_price_witness :
  In sample_enriched (main sample_df)
  /\ rrp sample_enriched = Num 100
  /\ unit_price sample_enriched = Num (255 # 3)
  /\ (Nge (discount_pct sample_enriched) (1 # 10)
      <-> (255 # 3 <= (9 # 10) * 100)%Q).
Proof.
  assert (H : In sample_enriched (main sample_df))
    by (vm_compute; left; reflexivity).
  assert (Ep : rrp sample_enriched = Num 100) by (vm_compute; reflexivity).
  assert (Pp : (0 < 100)%Q) by reflexivity.
  assert (Eu : unit_price sample_enriched = Num (255 # 3))
    by (vm_compute; reflexivity).
  split; [exact H|]. split; [exact Ep|]. split; [exact Eu|].
  exact (candidate_iff_price sample_df sample_enriched H Ep Pp Eu).
Defined.

(** X13: on a frame whose quantities are numbers, [promo_uplift_pct] is
    strictly positive exactly on the promo rows whose promo average exceeds
    a positive baseline. *)
Theorem uplift_positive_iff (df : list Row) (e : EnrichedRow) :
  (forall r, In r df -> defined (quantity r)) ->
  In e (main df) ->
  Ngt (promo_uplift_pct e) 0
  <-> is_promo e = true
      /\ exists b pa : Q,
           baseline_units e = Num b /\ promo_avg_units e = Num pa
           /\ (0 < b)%Q /\ (b < pa)%Q.
Proof.
  intros Hq He.
  destruct (uplift_means df e Hq He) as (qn & qp & _ & _ & B & P).
  destruct (main_uplift_fields _ _ He) as (_ & _ & U).
  pose proof (main_defined_quantity df Hq e He) as Dq.
  destruct (quantity e) as [q|] eqn:Eq; [|contradiction].
  assert (B' : exists b, baseline_units e = Num b)
    by (rewrite B; destruct qn; eauto).
  assert (P' : exists pa, promo_avg_units e = Num pa)
    by (rewrite P; destruct qp; eauto).
  destruct B' as (b & Eb). destruct P' as (pa & Epa).
  rewrite U, Eb, Epa.
  destruct (uplift_of_Num b pa (is_promo e)) as (Yes & No).
  split.
  - intro G.
    destruct (is_promo e) eqn:Pr.
    + destruct (Qlt_le_dec 0 b) as [Pb|Nb].
      * rewrite (Yes (conj eq_refl Pb)) in G. cbn in G.
        split; [reflexivity|]. exists b, pa. repeat split; try assumption.
        assert (Pnz : ~ (b == 0)%Q)
          by (intro Z; rewrite Z in Pb; apply (Qlt_irrefl 0 Pb)).
        assert (M : (0 < (pa - b) / b)%Q) by lra.
        assert (M' : (0 * b < (pa - b) / b * b)%Q)
          by (apply Qmult_lt_compat_r; assumption).
        setoid_replace ((pa - b) / b * b)%Q with (pa - b)%Q in M'
          by (field; exact Pnz).
        lra.
      * rewrite No in G; [cbn in G; lra|].
        intros (_ & Pb). apply (Qlt_not_le _ _ Pb Nb).
    + rewrite No in G; [cbn in G; lra|]. intros (X & _). discriminate X.
  - intros (Pr & b' & pa' & Eb' & Epa' & Pb & Lt).
    injection Eb' as <-. injection Epa' as <-.
    rewrite (Yes (conj Pr Pb)). cbn.
    assert (M : (0 < (pa - b) / b)%Q)
      by (apply Qlt_shift_div_l; [exact Pb | lra]).
    lra.
Qed.

Lemma uplift_positive_iff_witness :
  (forall r, In r sample_df -> defined (quantity r))
  /\ In sample_enriched (main sample_df)
  /\ (Ngt (promo_uplift_pct sample_enriched) 0
      <-> is_promo sample_enriched = true
          /\ exists b pa : Q,
               baseline_units sample_enriched = Num b
               /\ promo_avg_units sample_enriched = Num pa
               /\ (0 < b)%Q /\ (b < pa)%Q).
Proof.
  assert (Hq : forall r, In r sample_df -> defined (quantity r))
    by (intros r Hr; vm_compute in Hr;
        destruct Hr as [<-|[<-|[<-|[<-|[]]]]]; exact I).
  assert (He : In sample_enriched (main sample_df))
    by (vm_compute; left; reflexivity).
  split; [exact Hq|]. split; [exact He|].
  exact (uplift_positive_iff sample_df sample_enriched Hq He).
Defined.

Lemma Qsum_div (ps : list Q) (g : Q) :
  (Qsum (map (fun u => u / g) ps) == Qsum ps / g)%Q.
Proof.
  induction ps as [|p ps IH]; cbn.
  - unfold Qdiv. now rewrite Qmult_0_l.
  - rewrite IH. unfold Qdiv. now rewrite Qmult_plus_distr_l.
Qed.

Lemma main_cohort_rows_avg (df : list Row) (e x : EnrichedRow) :
  In e (main df) ->
  In x (cohort_rows (main df) e) ->
  group_avg_price x = group_avg_price e.
Proof.
  intros He Hx. apply cohort_rows_In in Hx. destruct Hx as (Hx & Ec).
  rewrite !(main_group_avg_price df) by assumption. now rewrite Ec.
Qed.

(** X14: in a cohort whose average unit price is strictly positive the
    price indices of the cohort's rows add up to the number of rows: their
    mean is 1.  Unit prices are numbers on every row of the input. *)
Theorem price_index_mean_one (df : list Row) (e : EnrichedRow) (g : Q) :
  (forall r, In r df -> defined (unit_price r)) ->
  In e (main df) ->
  group_avg_price e = Num g -> (0 < g)%Q ->
  exists xs : list Q,
    map (fun x : EnrichedRow => price_index_vs_comp x)
        (cohort_rows (main df) e) = map Num xs
    /\ (Qsum xs == Qnat (List.length (cohort_rows (main df) e)))%Q.
Proof.
  intros Hp He G Pg.
  destruct (cohort_mean df e Hp He) as (ps & E & G').
  rewrite G in G'. injection G' as ->.
  exists (map (fun u => u / Qmean ps)%Q ps). split.
  - transitivity
      (map (fun x : EnrichedRow =>
              price_index_of (unit_price x) (Num (Qmean ps)))
           (cohort_rows (main df) e)).
    + apply map_ext_in. intros x Hx.
      assert (Ix : In x (main df)) by (apply cohort_rows_In in Hx; tauto).
      rewrite (main_price_index _ _ Ix), (main_cohort_rows_avg _ _ _ He Hx).
      now rewrite G.
    + rewrite <- (map_map (fun x : EnrichedRow => unit_price x)
                          (fun v => price_index_of v (Num (Qmean ps)))).
      rewrite E, !map_map. apply map_ext. intro u.
      now apply price_index_of_Num.
  - rewrite Qsum_div.
    assert (L : List.length (cohort_rows (main df) e) = List.length ps).
    { rewrite <- (length_map (fun x : EnrichedRow => unit_price x)), E.
      apply length_map. }
    rewrite L. fold (Qlen ps).
    assert (Ln : ~ (Qlen ps == 0)%Q).
    { intro Z. unfold Qmean in Pg. rewrite Z in Pg. unfold Qdiv in Pg.
      change (/ 0)%Q with 0%Q in Pg. rewrite Qmult_0_r in Pg.
      apply (Qlt_irrefl 0 Pg). }
    assert (Sn : ~ (Qsum ps == 0)%Q).
    { intro Z. unfold Qmean in Pg. rewrite Z in Pg. unfold Qdiv in Pg.
      rewrite Qmult_0_l in Pg. apply (Qlt_irrefl 0 Pg). }
    unfold Qmean. field. split; assumption.
Qed.

Lemma price_index_mean_one_witness :
  (forall r, In r sample_df -> defined (unit_price r))
  /\ In sample_enriched (main sample_df)
  /\ group_avg_price sample_enriched = Num (11475 # 135)
  /\ exists xs : list Q,
       map (fun x : EnrichedRow => price_index_vs_comp x)
           (cohort_rows (main sample_df) sample_enriched) = map Num xs
       /\ (Qsum xs
           == Qnat (List.length (cohort_rows (main sample_df) sample_enriched)))%Q.
Proof.
  assert (Hp : forall r, In r sample_df -> defined (unit_price r))
    by (intros r Hr; vm_compute in Hr;
        destruct Hr as [<-|[<-|[<-|[<-|[]]]]]; exact I).
  assert (He : In sample_enriched (main sample_df))
    by (vm_compute; left; reflexivity).
  assert (G : group_avg_price sample_enriched = Num (11475 # 135))
    by (vm_compute; reflexivity).
  assert (Pg : (0 < 11475 # 135)%Q) by reflexivity.
  split; [exact Hp|]. split; [exact He|]. split; [exact G|].
  exact (price_index_mean_one sample_df sample_enriched Hp He G Pg).
Defined.

(** X15: against a strictly positive group average, the price index is
    above 1 exactly when the row is priced above the average and below 1
    exactly when it is priced below it. *)
Theorem price_index_side (df : list Row) (e : EnrichedRow) (g u : Q) :
  In e (main df) ->
  group_avg_price e = Num g -> (0 < g)%Q ->
  unit_price e = Num u ->
  exists x : Q,
    price_index_vs_comp e = Num x
    /\ ((1 < x)%Q <-> (g < u)%Q)
    /\ ((x < 1)%Q <-> (u < g)%Q).
Proof.
  intros He G Pg Eu.
  rewrite (main_price_index _ _ He), G, Eu.
  destruct (price_index_of_Num u g) as (Yes & _). rewrite (Yes Pg).
  exists (u / g)%Q. split; [reflexivity|].
  assert (Gn : ~ (g == 0)%Q)
    by (intro Z; rewrite Z in Pg; apply (Qlt_irrefl 0 Pg)).
  assert (M : (u / g * g == u)%Q) by (field; exact Gn).
  split; split; intro L.
  - assert (T : (1 * g < u / g * g)%Q)
      by (apply Qmult_lt_compat_r; assumption).
    rewrite M in T. lra.
  - apply Qlt_shift_div_l; [exact Pg | lra].
  - assert (T : (u / g * g < 1 * g)%Q)
      by (apply Qmult_lt_compat_r; assumption).
    rewrite M in T. lra.
  - apply Qlt_shift_div_r; [exact Pg | lra].
Qed.

Lemma price_index_side_witness :
  In sample_enriched (main sample_df)
  /\ group_avg_price sample_enriched = Num (11475 # 135)
  /\ unit_price sample_enriched = Num (255 # 3)
  /\ exists x : Q,
       price_index_vs_comp sample_enriched = Num x
       /\ ((1 < x)%Q <-> (11475 # 135 < 255 # 3)%Q).
Proof.
  assert (He : In sample_enriched (main sample_df))
    by (vm_compute; left; reflexivity).
  assert (G : group_avg_price sample_enriched = Num (11475 # 135))
    by (vm_compute; reflexivity).
  assert (Pg : (0 < 11475 # 135)%Q) by reflexivity.
  assert (Eu : unit_price sample_enriched = Num (255 # 3))
    by (vm_compute; reflexivity).
  split; [exact He|]. split; [exact G|]. split; [exact Eu|].
  destruct (price_index_side sample_df sample_enriched He G Pg Eu)
    as (x & X & A & _).
  exists x. split; [exact X | exact A].
Defined.

(* ================================================================== *)
(** ** The order of the rows does not matter *)
(* ================================================================== *)

Lemma filter_Permutation (T : Type) (f : T -> bool) (l l' : list T) :
  Permutation l l' -> Permutation (filter f l) (filter f l').
Proof.
  induction 1 as [|x l l' _ IH|x y l|l l' l'' _ IH1 _ IH2]; cbn.
  - constructor.
  - destruct (f x); [now constructor | exact IH].
  - destruct (f x), (f y); try reflexivity. constructor.
  - now transitivity (filter f l').
Qed.

Lemma dropna_Permutation (T : Type) (l l' : list (option T)) :
  Permutation l l' -> Permutation (dropna l) (dropna l').
Proof.
  induction 1 as [|x l l' _ IH|x y l|l l' l'' _ IH1 _ IH2]; cbn.
  - constructor.
  - destruct x; [now constructor | exact IH].
  - destruct x, y; try reflexivity. constructor.
  - now transitivity (dropna l').
Qed.

Lemma dropnan_Permutation (l l' : list num) :
  Permutation l l' -> Permutation (dropnan l) (dropnan l').
Proof.
  induction 1 as [|x l l' _ IH|x y l|l l' l'' _ IH1 _ IH2]; cbn.
  - constructor.
  - destruct x; [now constructor | exact IH].
  - destruct x, y; try reflexivity. constructor.
  - now transitivity (dropnan l').
Qed.

Lemma nunique_Permutation (T : Type) (dec : forall x y : T, {x = y} + {x <> y})
      (l l' : list T) :
  Permutation l l' -> nunique dec l = nunique dec l'.
Proof.
  intro P. apply Nat.le_antisymm; apply nunique_le; intros x Hx.
  - now apply (Permutation_in _ P).
  - now apply (Permutation_in _ (Permutation_sym P)).
Qed.

(** Sums of fractions do not depend on the order of the terms, numerator
    for numerator and denominator for denominator. *)
Lemma Qplus_swap (x y s : Q) : (x + (y + s) = y + (x + s))%Q.
Proof.
  destruct x as [a b], y as [c d], s as [m n]. unfold Qplus. cbn [Qnum Qden].
  f_equal.
  - rewrite !Pos2Z.inj_mul. ring.
  - rewrite !Pos.mul_assoc. f_equal. apply Pos.mul_comm.
Qed.

Lemma Qsum_Permutation (l l' : list Q) : Permutation l l' -> Qsum l = Qsum l'.
Proof.
  induction 1 as [|x l l' _ IH|x y l|l l' l'' _ IH1 _ IH2]; cbn.
  - reflexivity.
  - now rewrite IH.
  - apply Qplus_swap.
  - now transitivity (Qsum l').
Qed.

Lemma mean_Permutation (l l' : list num) : Permutation l l' -> mean l = mean l'.
Proof.
  intro P. apply dropnan_Permutation in P. unfold mean.
  destruct (dropnan l) as [|q vs] eqn:E.
  - apply Permutation_nil in P. now rewrite P.
  - destruct (dropnan l') as [|q' vs'] eqn:E'.
    + apply Permutation_sym, Permutation_nil in P. discriminate P.
    + unfold Qmean, Qlen.
      now rewrite (Qsum_Permutation P), (Permutation_length P).
Qed.

Lemma group_Permutation (T K : Type) (dec : forall x y : K, {x = y} + {x <> y})
      (key : T -> K) (k : K) (l l' : list T) :
  Permutation l l' -> Permutation (group dec key k l) (group dec key k l').
Proof. apply filter_Permutation. Qed.

Lemma promo_row_Permutation (df df' : list Row) (r : Row) :
  Permutation df df' -> promo_row df r = promo_row df' r.
Proof.
  intro P.
  assert (E : nunique_dates (candidates_of df (item_code r))
              = nunique_dates (candidates_of df' (item_code r))).
  { unfold nunique_dates, candidates_of. apply nunique_Permutation.
    apply dropna_Permutation, Permutation_map, group_Permutation.
    now apply filter_Permutation. }
  unfold promo_row. now rewrite E.
Qed.

Lemma uplift_row_Permutation (df df' : list PromoRow) (r : PromoRow) :
  Permutation df df' -> uplift_row df r = uplift_row df' r.
Proof.
  intro P.
  assert (E : forall b,
            mean_quantity (item_group b df (item_code r))
            = mean_quantity (item_group b df' (item_code r))).
  { intro b. unfold mean_quantity, item_group. apply mean_Permutation.
    apply Permutation_map, group_Permutation. now apply filter_Permutation. }
  unfold uplift_row. now rewrite !E.
Qed.

Lemma price_row_Permutation (df df' : list UpliftRow) (r : UpliftRow) :
  Permutation df df' -> price_row df r = price_row df' r.
Proof.
  intro P.
  assert (E : mean_unit_price (cohort_group df (cohort r))
              = mean_unit_price (cohort_group df' (cohort r))).
  { unfold mean_unit_price, cohort_group. apply mean_Permutation.
    now apply Permutation_map, group_Permutation. }
  unfold price_row. now rewrite E.
Qed.

Lemma coverage_row_Permutation (df df' : list PriceRow) (r : PriceRow) :
  Permutation df df' -> coverage_row df r = coverage_row df' r.
Proof.
  intro P.
  assert (E : nunique_stores (promo_stores_of df (item_code r))
              = nunique_stores (promo_stores_of df' (item_code r))).
  { unfold nunique_stores, promo_stores_of. apply nunique_Permutation.
    apply Permutation_map, group_Permutation. now apply filter_Permutation. }
  assert (T : nunique_stores df = nunique_stores df').
  { unfold nunique_stores. apply nunique_Permutation.
    now apply Permutation_map. }
  unfold coverage_row. now rewrite E, T.
Qed.

(** A pass that maps a row function over its frame commutes with
    reordering when the row function does not see the order. *)
Lemma pass_Permutation (S T : Type) (row : list S -> S -> T) (df df' : list S) :
  (forall r, row df r = row df' r) ->
  Permutation df df' ->
  Permutation (map (row df) df) (map (row df') df').
Proof.
  intros E P. rewrite <- (map_ext _ _ E). now apply Permutation_map.
Qed.

(** X16: reordering the rows of the cleaned frame reorders the enriched
    rows in the same way and changes none of them: every enrichment field
    of a row depends on the other rows only as a collection. *)
Theorem main_Permutation (df df' : list Row) :
  Permutation df df' -> Permutation (main df) (main df').
Proof.
  intro P. unfold main.
  assert (P1 : Permutation (detect_promos df) (detect_promos df')).
  { rewrite !detect_promos_rows. apply pass_Permutation; [|exact P].
    intro r. now apply promo_row_Permutation. }
  assert (P2 : Permutation (calculate_uplift (detect_promos df))
                           (calculate_uplift (detect_promos df'))).
  { rewrite !calculate_uplift_rows. apply pass_Permutation; [|exact P1].
    intro r. now apply uplift_row_Permutation. }
  assert (P3 : Permutation
                 (calculate_price_index (calculate_uplift (detect_promos df)))
                 (calculate_price_index (calculate_uplift (detect_promos df')))).
  { rewrite !calculate_price_index_rows. apply pass_Permutation; [|exact P2].
    intro r. now apply price_row_Permutation. }
  rewrite !calculate_promo_coverage_rows. apply pass_Permutation; [|exact P3].
  intro r. now apply coverage_row_Permutation.
Qed.

Lemma main_Permutation_witness :
  Permutation sample_df (rev sample_df)
  /\ Permutation (main sample_df) (main (rev sample_df)).
Proof.
  assert (P : Permutation sample_df (rev sample_df)) by apply Permutation_rev.
  split; [exact P|]. exact (main_Permutation P).
Defined.

(* ================================================================== *)
(** ** The Bidco flag *)
(* ================================================================== *)

Lemma lower_append (a b : string) :
  lower (a ++ b) = (lower a ++ lower b)%string.
Proof. induction a as [|c a IH]; cbn; [reflexivity | now rewrite IH]. Qed.

Lemma prefix_append (p s : string) : prefix p (p ++ s) = true.
Proof.
  induction p as [|c p IH]; cbn; [now destruct s|].
  destruct (ascii_dec c c) as [_|N]; [exact IH | now contradiction N].
Qed.

Lemma substring_of_append (pat pre post : string) :
  substring_of pat (pre ++ pat ++ post) = true.
Proof.
  induction pre as [|c pre IH].
  - cbn [append]. destruct (pat ++ post)%string eqn:E;
      cbn [substring_of]; rewrite <- E, prefix_append; reflexivity.
  - cbn [append substring_of]. rewrite IH. apply orb_true_r.
Qed.

(** X17: a row whose supplier name contains the letters of "Bidco" in any
    mix of upper and lower case, anywhere in the name, is flagged
    [is_bidco]. *)
Theorem is_bidco_any_case (df : list Row) (e : EnrichedRow)
        (pre w post : string) :
  In e (main df) ->
  supplier e = (pre ++ w ++ post)%string ->
  lower w = "bidco"%string ->
  is_bidco e = true.
Proof.
  intros H Es Ew. apply main_In in H. destruct H as (_ & _ & _ & E & _).
  rewrite E. cbn [is_bidco price_row]. unfold contains_nocase.
  change (supplier (uplift_base (price_base (coverage_base e))))
    with (supplier e).
  rewrite Es, !lower_append, Ew.
  change (lower "Bidco") with "bidco"%string.
  apply substring_of_append.
Qed.

Lemma is_bidco_any_case_witness :
  In sample_enriched (main sample_df)
  /\ supplier sample_enriched = ("" ++ "Bidco" ++ " Africa Ltd")%string
  /\ is_bidco sample_enriched = true.
Proof.
  assert (H : In sample_enriched (main sample_df))
    by (vm_compute; left; reflexivity).
  assert (Es : supplier sample_enriched
               = ("" ++ "Bidco" ++ " Africa Ltd")%string)
    by (vm_compute; reflexivity).
  assert (Ew : lower "Bidco" = "bidco"%string) by (vm_compute; reflexivity).
  split; [exact H|]. split; [exact Es|].
  exact (is_bidco_any_case sample_df sample_enriched "" "Bidco" " Africa Ltd"
                           H Es Ew).
Defined.

(* ================================================================== *)
(** ** What the loader submits *)
(* ================================================================== *)

Lemma traverse_None_iff (S T : Type) (f : S -> option T) (l : list S) :
  traverse f l = None <-> exists x, In x l /\ f x = None.
Proof.
  induction l as [|x l IH]; cbn.
  - split; [discriminate | intros (x & [] & _)].
  - destruct (f x) as [y|] eqn:Fx.
    + destruct (traverse f l) as [ys|].
      * split; [discriminate|]. intros (z & [<-|Hz] & Fz); [congruence|].
        assert (X : Some ys = None) by (apply IH; now exists z).
        discriminate X.
      * split; [|reflexivity]. intros _.
        destruct (proj1 IH eq_refl) as (z & Hz & Fz). exists z. tauto.
    + split; [|reflexivity]. intros _. exists x. tauto.
Qed.

Lemma traverse_Some (S T : Type) (f : S -> option T) (l : list S)
      (ys : list T) :
  traverse f l = Some ys -> map f l = map Some ys.
Proof.
  revert ys. induction l as [|x l IH]; cbn; intros ys H.
  - injection H as <-. reflexivity.
  - destruct (f x) as [y|]; [|discriminate H].
    destruct (traverse f l) as [zs|]; [|discriminate H].
    injection H as <-. cbn. now rewrite (IH zs eq_refl).
Qed.

Lemma map_Some_inj (T : Type) (l l' : list T) :
  map Some l = map Some l' -> l = l'.
Proof.
  revert l'. induction l as [|x l IH]; intros [|y l'] H;
    try discriminate H; [reflexivity|].
  cbn in H. injection H as -> H. now rewrite (IH _ H).
Qed.

Lemma all_present (T : Type) (l : list (option T)) :
  ~ In None l -> exists ts, l = map Some ts.
Proof.
  induction l as [|[t|] l IH]; intro N.
  - now exists [].
  - destruct IH as (ts & ->); [intro I; apply N; now right|].
    now exists (t :: ts).
  - exfalso. apply N. now left.
Qed.

(** The distinct values of the date column hold a missing date exactly
    when the column does. *)
Lemma distinct_dates_In (l : list date) (d : date) :
  In d (drop_duplicates date_dec (fun x : date => x) l) <-> In d l.
Proof.
  split.
  - apply drop_duplicates_from_In.
  - intro H.
    destruct (drop_duplicates_keeps_keys date_dec (fun x : date => x) l d H)
      as (r & Hr & <-). exact Hr.
Qed.

Section LoadingFacts.
Variable strftime_ymd : Z -> string.
Variable int_of_str : string -> Z.
Variables date_part year_of month_of day_of weekday_of : Z -> Z.
Variable weekday_name_of : Z -> string.
Variables store_map supplier_map date_map item_map : string -> option Z.

(** X18: [load_dimension_dates] raises exactly when some row of the frame
    has no sale date: [strftime] is called on every distinct value of the
    date column, NaT included. *)
Theorem dates_loader_raises_iff (df : list EnrichedRow) :
  load_dimension_dates strftime_ymd int_of_str date_part year_of month_of
                       day_of weekday_of weekday_name_of df = None
  <-> exists e : EnrichedRow, In e df /\ date_of_sale e = None.
Proof.
  unfold load_dimension_dates. rewrite traverse_None_iff. split.
  - intros ([t|] & Hd & F); [discriminate F|].
    apply distinct_dates_In, in_map_iff in Hd.
    destruct Hd as (e & E & He). now exists e.
  - intros (e & He & E). exists None. split; [|reflexivity].
    apply distinct_dates_In, in_map_iff. now exists e.
Qed.

(** X19: when [load_dimension_dates] does not raise it submits one tuple
    per distinct sale date of the frame, and no other. *)
Theorem dates_loader_records (df : list EnrichedRow) (recs : list DateRecord) :
  load_dimension_dates strftime_ymd int_of_str date_part year_of month_of
                       day_of weekday_of weekday_name_of df = Some recs ->
  exists ts : list Z,
    recs = map (date_record strftime_ymd int_of_str date_part year_of
                            month_of day_of weekday_of weekday_name_of) ts
    /\ NoDup ts
    /\ (forall t, In t ts <->
          exists e : EnrichedRow, In e df /\ date_of_sale e = Some t).
Proof.
  unfold load_dimension_dates. intro H.
  set (dates := drop_duplicates date_dec (fun d : date => d)
                  (map (fun e : EnrichedRow => date_of_sale e) df)) in *.
  assert (N : ~ In None dates).
  { intro I. assert (X : Some recs = None); [|discriminate X].
    rewrite <- H. apply traverse_None_iff. exists None. now split. }
  destruct (all_present _ N) as (ts & E).
  exists ts. split; [|split].
  - apply traverse_Some in H. rewrite E, map_map in H.
    apply map_Some_inj. rewrite <- H, map_map. reflexivity.
  - apply (NoDup_map_inv Some). rewrite <- E.
    rewrite <- (map_id dates). unfold dates, drop_duplicates.
    apply drop_duplicates_from_NoDup.
  - intro t. split.
    + intro I.
      assert (I' : In (Some t) dates) by (rewrite E; now apply in_map).
      apply distinct_dates_In, in_map_iff in I'.
      destruct I' as (e & Ee & He). now exists e.
    + intros (e & He & Ee).
      assert (I' : In (Some t) dates)
        by (apply distinct_dates_In, in_map_iff; now exists e).
      rewrite E in I'. apply in_map_iff in I'.
      destruct I' as (t' & Et & I'). injection Et as <-. exact I'.
Qed.

Lemma resolve_fks_Some (e e' : EnrichedRow) (k : fks) :
  resolve_fks strftime_ymd store_map supplier_map date_map item_map e
  = Some (e', k)
  <-> e' = e
      /\ exists (s i p d t : Z),
           k = (s, i, p, d)
           /\ store_map (store_name e) = Some s
           /\ item_map (item_code e) = Some i
           /\ supplier_map (supplier e) = Some p
           /\ date_of_sale e = Some t
           /\ date_map (strftime_ymd t) = Some d.
Proof.
  unfold resolve_fks. split.
  - intro H.
    destruct (date_of_sale e) as [t|]; cbn [option_map] in H;
      destruct (store_map (store_name e)) as [s|] eqn:Hs;
      destruct (supplier_map (supplier e)) as [p|] eqn:Hp;
      try discriminate H.
    destruct (date_map (strftime_ymd t)) as [d|] eqn:Hd;
      destruct (item_map (item_code e)) as [i|] eqn:Hi;
      try discriminate H.
    injection H as <- <-. split; [reflexivity|].
    exists s, i, p, d, t. repeat split; assumption.
  - intros (-> & s & i & p & d & t & -> & Hs & Hi & Hp & Ht & Hd).
    rewrite Ht. cbn [option_map]. rewrite Hs, Hp, Hd, Hi. reflexivity.
Qed.

Lemma fact_record_Some (e : EnrichedRow) (s i p d : Z) (rec : FactRecord) :
  fact_record (e, (s, i, p, d)) = Some rec ->
  exists q : Q,
    quantity e = Num q
    /\ fact_store_id rec = s /\ fact_item_id rec = i
    /\ fact_supplier_id rec = p /\ fact_date_id rec = d
    /\ fact_quantity rec = Qtrunc q
    /\ fact_is_promo rec = is_promo e
    /\ fact_data_quality_flag rec = data_quality_flag e
    /\ fact_discount_pct rec = fillna (discount_pct e) (Num 0)
    /\ fact_baseline_units rec = notna_or_null (baseline_units e)
    /\ fact_promo_uplift_pct rec = notna_or_null (promo_uplift_pct e)
    /\ fact_price_index_vs_comp rec
       = notna_or_null (price_index_vs_comp e).
Proof.
  unfold fact_record. cbn [fst snd].
  destruct (quantity e) as [q|]; [|discriminate].
  intro H. injection H as <-. exists q. cbn. repeat split; reflexivity.
Qed.

Lemma valid_rows_In (df : list EnrichedRow) (e : EnrichedRow) (k : fks) :
  In (e, k)
     (dropna (map (resolve_fks strftime_ymd store_map supplier_map date_map
                               item_map) df))
  <-> In e df
      /\ resolve_fks strftime_ymd store_map supplier_map date_map item_map e
         = Some (e, k).
Proof.
  rewrite dropna_In, in_map_iff. split.
  - intros (e0 & R & I). pose proof R as R'.
    apply resolve_fks_Some in R'. destruct R' as (<- & _). tauto.
  - intros (I & R). now exists e.
Qed.

(** X20: [load_fact_sales] raises exactly when some row whose four keys
    all resolve has a missing quantity; a missing quantity on a row that is
    dropped for an unresolved key raises nothing. *)
Theorem facts_loader_raises_iff (df : list EnrichedRow) :
  load_fact_sales strftime_ymd store_map supplier_map date_map item_map df
  = None
  <-> exists e : EnrichedRow,
        In e df /\ quantity e = NaN
        /\ exists s i p d t : Z,
             store_map (store_name e) = Some s
             /\ item_map (item_code e) = Some i
             /\ supplier_map (supplier e) = Some p
             /\ date_of_sale e = Some t
             /\ date_map (strftime_ymd t) = Some d.
Proof.
  unfold load_fact_sales. rewrite traverse_None_iff. split.
  - intros ((e & k) & I & F). apply valid_rows_In in I.
    destruct I as (I & R). apply resolve_fks_Some in R.
    destruct R as (_ & s & i & p & d & t & -> & Hs & Hi & Hp & Ht & Hd).
    exists e. split; [exact I|]. split.
    + unfold fact_record in F. cbn [fst snd] in F.
      destruct (quantity e); [discriminate F | reflexivity].
    + exists s, i, p, d, t. repeat split; assumption.
  - intros (e & I & Q & s & i & p & d & t & Hs & Hi & Hp & Ht & Hd).
    exists (e, (s, i, p, d)). split.
    + apply valid_rows_In. split; [exact I|]. apply resolve_fks_Some.
      split; [reflexivity|]. exists s, i, p, d, t. repeat split; assumption.
    + unfold fact_record. cbn [fst snd]. now rewrite Q.
Qed.

(** X21: when [load_fact_sales] does not raise, every tuple it submits
    comes from a row of the frame that has a sale date and a quantity and
    whose store, item, supplier and date keys all resolve, and it carries
    those keys, the truncated quantity and a defined discount; every such
    row gives a tuple; no more tuples than rows are submitted. *)
Theorem facts_loader_records (df : list EnrichedRow) (recs : list FactRecord) :
  load_fact_sales strftime_ymd store_map supplier_map date_map item_map df
  = Some recs ->
  (List.length recs <= List.length df)%nat
  /\ (forall rec, In rec recs ->
        exists (e : EnrichedRow) (t : Z) (q : Q),
          In e df /\ date_of_sale e = Some t /\ quantity e = Num q
          /\ store_map (store_name e) = Some (fact_store_id rec)
          /\ item_map (item_code e) = Some (fact_item_id rec)
          /\ supplier_map (supplier e) = Some (fact_supplier_id rec)
          /\ date_map (strftime_ymd t) = Some (fact_date_id rec)
          /\ fact_quantity rec = Qtrunc q
          /\ fact_is_promo rec = is_promo e
          /\ fact_data_quality_flag rec = data_quality_flag e
          /\ fact_discount_pct rec = fillna (discount_pct e) (Num 0))
  /\ (forall (e : EnrichedRow) (s i p d t : Z),
        In e df ->
        store_map (store_name e) = Some s ->
        item_map (item_code e) = Some i ->
        supplier_map (supplier e) = Some p ->
        date_of_sale e = Some t ->
        date_map (strftime_ymd t) = Some d ->
        exists rec, In rec recs
                    /\ fact_store_id rec = s /\ fact_item_id rec = i
                    /\ fact_supplier_id rec = p /\ fact_date_id rec = d
                    /\ fact_is_promo rec = is_promo e).
Proof.
  unfold load_fact_sales. intro H. apply traverse_Some in H.
  set (valid := dropna (map (resolve_fks strftime_ymd store_map supplier_map
                                         date_map item_map) df)) in *.
  split; [|split].
  - rewrite <- (length_map Some recs), <- H, length_map.
    unfold valid. rewrite <- (length_map
      (resolve_fks strftime_ymd store_map supplier_map date_map item_map) df).
    generalize (map (resolve_fks strftime_ymd store_map supplier_map date_map
                                 item_map) df).
    intro l. induction l as [|[x|] l IH]; cbn; lia.
  - intros rec I. apply (in_map Some) in I. rewrite <- H in I.
    apply in_map_iff in I. destruct I as ((e & k) & F & I).
    apply valid_rows_In in I. destruct I as (I & R).
    apply resolve_fks_Some in R.
    destruct R as (_ & s & i & p & d & t & -> & Hs & Hi & Hp & Ht & Hd).
    apply fact_record_Some in F.
    destruct F as (q & Q & -> & -> & -> & -> & Fq & Fp & Ff & Fd & _).
    exists e, t, q. repeat split; assumption.
  - intros e s i p d t I Hs Hi Hp Ht Hd.
    assert (V : In (e, (s, i, p, d)) valid).
    { apply valid_rows_In. split; [exact I|]. apply resolve_fks_Some.
      split; [reflexivity|]. exists s, i, p, d, t. repeat split; assumption. }
    apply (in_map fact_record) in V. rewrite H in V.
    apply in_map_iff in V. destruct V as (rec & F & V).
    symmetry in F. apply fact_record_Some in F.
    destruct F as (q & _ & Fs & Fi & Fp & Fd & _ & Fpr & _).
    exists rec. repeat split; assumption.
Qed.
End LoadingFacts.

Lemma dates_loader_records_witness :
  exists recs : list DateRecord,
    load_dimension_dates sample_ymd sample_int (fun t => t)
      (fun _ => 2024%Z) (fun _ => 1%Z) (fun t => t) (fun t => (t - 1)%Z)
      sample_weekday (main sample_df) = Some recs
    /\ exists ts : list Z, NoDup ts /\ List.length recs = List.length ts.
Proof.
  destruct (load_dimension_dates sample_ymd sample_int (fun t => t)
      (fun _ => 2024%Z) (fun _ => 1%Z) (fun t => t) (fun t => (t - 1)%Z)
      sample_weekday (main sample_df)) as [recs|] eqn:H.
  - exists recs. split; [reflexivity|].
    destruct (dates_loader_records sample_ymd sample_int (fun t => t)
                (fun _ => 2024%Z) (fun _ => 1%Z) (fun t => t)
                (fun t => (t - 1)%Z) sample_weekday (main sample_df) H)
      as (ts & E & ND & _).
    exists ts. split; [exact ND|]. rewrite E. apply length_map.
  - vm_compute in H. discriminate H.
Defined.

Lemma facts_loader_records_witness :
  exists recs : list FactRecord,
    load_fact_sales sample_ymd sample_store_map sample_supplier_map
      sample_date_map sample_item_map (main sample_df) = Some recs
    /\ (List.length recs <= List.length (main sample_df))%nat.
Proof.
  destruct (load_fact_sales sample_ymd sample_store_map sample_supplier_map
      sample_date_map sample_item_map (main sample_df)) as [recs|] eqn:H.
  - exists recs. split; [reflexivity|].
    destruct (facts_loader_records sample_ymd sample_store_map
                sample_supplier_map sample_date_map sample_item_map
                (main sample_df) H) as (L & _).
    exact L.
  - vm_compute in H. discriminate H.
Defined.

(* ================================================================== *)
(** ** From staging to the loader *)
(* ================================================================== *)

(** X22: a raw row without a sale date survives cleaning (flagged, not
    removed) and enrichment, and makes [load_dimension_dates] raise on the
    enriched frame. *)
Theorem undated_row_aborts_loading
        (str_strip str_title str_upper : string -> string)
        (strftime_ymd : Z -> string) (int_of_str : string -> Z)
        (date_part year_of month_of day_of weekday_of : Z -> Z)
        (weekday_name_of : Z -> string)
        (raw : list RawRow) (x : RawRow) :
  In x raw ->
  raw_date_of_sale x = None ->
  load_dimension_dates strftime_ymd int_of_str date_part year_of month_of
                       day_of weekday_of weekday_name_of
                       (main (clean_data str_strip str_title str_upper raw))
  = None.
Proof.
  intros Hx Hd.
  destruct (drop_duplicates_keeps_keys dedup_dec duplicate_key
              (map (clean_row str_strip str_title str_upper) raw)
              (clean_row str_strip str_title str_upper x)
              (in_map _ _ _ Hx)) as (r & Hr & Ek).
  assert (Dr : date_of_sale r = None).
  { unfold duplicate_key in Ek. injection Ek as _ _ Ed. rewrite Ed. exact Hd. }
  fold (clean_data str_strip str_title str_upper raw) in Hr.
  apply main_row_iff in Hr. destruct Hr as (e & He & <-).
  unfold load_dimension_dates. apply traverse_None_iff.
  exists None. split; [|reflexivity].
  apply distinct_dates_In, in_map_iff. now exists e.
Qed.

Lemma undated_row_aborts_loading_witness :
  In (undated (raw_sale "B" "SKU2" 5 2 170 100)) messy_raw
  /\ load_dimension_dates sample_ymd sample_int (fun t => t)
      (fun _ => 2024%Z) (fun _ => 1%Z) (fun t => t) (fun t => (t - 1)%Z)
      sample_weekday (main (clean_plain messy_raw)) = None.
Proof.
  assert (Hx : In (undated (raw_sale "B" "SKU2" 5 2 170 100)) messy_raw)
    by (vm_compute; do 5 right; left; reflexivity).
  split; [exact Hx|]. unfold clean_plain.
  exact (undated_row_aborts_loading
           (fun s => s) (fun s => s) (fun s => s)
           sample_ymd sample_int (fun t => t) (fun _ => 2024%Z)
           (fun _ => 1%Z) (fun t => t) (fun t => (t - 1)%Z) sample_weekday
           messy_raw _ Hx eq_refl).
Defined.

Lemma enriched_optional_defined (df : list Row) (e : EnrichedRow) :
  (forall r, In r df -> defined (quantity r) /\ defined (unit_price r)) ->
  In e (main df) ->
  defined (baseline_units e)
  /\ defined (promo_uplift_pct e)
  /\ defined (price_index_vs_comp e).
Proof.
  intros Hd He.
  assert (Hq : forall r, In r df -> defined (quantity r))
    by (intros r Hr; now apply Hd).
  assert (Hp : forall r, In r df -> defined (unit_price r))
    by (intros r Hr; now apply Hd).
  pose proof (main_defined_quantity df Hq e He) as Dq.
  pose proof (main_defined_unit_price df Hp e He) as Du.
  destruct (uplift_means df e Hq He) as (qn & qp & _ & _ & B & P).
  destruct (main_uplift_fields _ _ He) as (_ & _ & U).
  destruct (cohort_mean df e Hp He) as (ps & _ & G).
  pose proof (main_price_index _ _ He) as X.
  destruct (quantity e) as [q|]; [|contradiction].
  destruct (unit_price e) as [u|]; [|contradiction].
  assert (B' : exists b, baseline_units e = Num b)
    by (rewrite B; destruct qn; eauto).
  assert (P' : exists pa, promo_avg_units e = Num pa)
    by (rewrite P; destruct qp; eauto).
  destruct B' as (b & Eb). destruct P' as (pa & Epa).
  rewrite Eb, Epa in U. rewrite G in X.
  split; [now rewrite Eb|].
  split; [rewrite U; apply uplift_of_defined|].
  rewrite X. apply price_index_of_defined.
Qed.

Lemma notna_or_null_defined (x : num) : defined x -> notna_or_null x <> None.
Proof. destruct x; [discriminate | contradiction]. Qed.

(** X23: on the enriched frame of a cleaned frame whose quantities and unit
    prices are numbers, [load_fact_sales] does not raise, whatever the
    dimension tables hold, and no tuple it submits has a NULL baseline,
    uplift or price index. *)
Theorem numeric_frame_loads
        (strftime_ymd : Z -> string)
        (store_map supplier_map date_map item_map : string -> option Z)
        (df : list Row) :
  (forall r, In r df -> defined (quantity r) /\ defined (unit_price r)) ->
  exists recs : list FactRecord,
    load_fact_sales strftime_ymd store_map supplier_map date_map item_map
                    (main df) = Some recs
    /\ forall rec, In rec recs ->
         fact_baseline_units rec <> None
         /\ fact_promo_uplift_pct rec <> None
         /\ fact_price_index_vs_comp rec <> None.
Proof.
  intro Hd.
  destruct (load_fact_sales strftime_ymd store_map supplier_map date_map
                            item_map (main df)) as [recs|] eqn:H.
  - exists recs. split; [reflexivity|]. intros rec I.
    unfold load_fact_sales in H. apply traverse_Some in H.
    apply (in_map Some) in I. rewrite <- H in I. apply in_map_iff in I.
    destruct I as ((e & k) & F & I). apply valid_rows_In in I.
    destruct I as (I & _). destruct k as (((s & i) & p) & d).
    apply fact_record_Some in F.
    destruct F as (q & _ & _ & _ & _ & _ & _ & _ & _ & _ & Fb & Fu & Fx).
    destruct (enriched_optional_defined df e Hd I) as (Db & Du & Dx).
    rewrite Fb, Fu, Fx. repeat split; now apply notna_or_null_defined.
  - exfalso. unfold load_fact_sales in H. apply traverse_None_iff in H.
    destruct H as ((e & k) & I & F). apply valid_rows_In in I.
    destruct I as (I & _).
    assert (Dq : defined (quantity e)).
    { apply (main_defined_quantity df); [|exact I].
      intros r Hr. now apply Hd. }
    unfold fact_record in F. cbn [fst snd] in F.
    destruct k as (((s & i) & p) & d).
    destruct (quantity e); [discriminate F | contradiction].
Qed.

Lemma numeric_frame_loads_witness :
  (forall r, In r sample_df -> defined (quantity r) /\ defined (unit_price r))
  /\ exists recs : list FactRecord,
       load_fact_sales sample_ymd sample_store_map sample_supplier_map
      sample_date_map sample_item_map (main sample_df) = Some recs.
Proof.
  assert (Hd : forall r, In r sample_df ->
                         defined (quantity r) /\ defined (unit_price r))
    by (intros r Hr; vm_compute in Hr;
        destruct Hr as [<-|[<-|[<-|[<-|[]]]]]; split; exact I).
  split; [exact Hd|].
  destruct (numeric_frame_loads sample_ymd sample_store_map
              sample_supplier_map sample_date_map sample_item_map
              sample_df Hd) as (recs & E & _).
  exists recs. exact E.
Defined.
